(** * Nova-Registry/json: the validators of [src/index.ts]

    A shallow embedding of the five type guards of the [json] namespace
    ([isPackageExport], [isPackageAuthor], [isPackage], [isTagValid],
    [isRemotePackage]) and the properties stated about them.

    The validators receive untyped JavaScript values.  The embedding keeps
    the operations the source performs on them as they are in the language:
    truthiness, [typeof], comparison with [null], property reads (which
    throw on [undefined] and [null] and fall back on [Object.prototype]),
    [Object.entries], the method call [name.toLowerCase()], and the calls to
    the two collaborators ([logger.err], [semver.valid]).  Every validator
    runs in a small monad that carries the diagnostics written so far and
    the way the call ends: with a value, or with a thrown exception.

    The values are the primitives, function objects and ordinary objects
    with data properties.  Module [Host] repeats the validators on arrays
    and on objects with accessor properties, for the property that depends
    on them. *)

From Stdlib Require Import List String Ascii Bool Arith ZArith Lia.
From Stdlib Require Import DecimalString.
From Stdlib Require Import Floats.SpecFloat.
Import ListNotations.
Open Scope string_scope.
Set Warnings "-register-all".

(** ** JavaScript values and the operations the validators use *)

Module JS.

(** The values the embedding ranges over: the primitives, function objects
    (opaque), and ordinary objects.  An ordinary object is the list
    of its own enumerable string-keyed data properties in enumeration
    order; its prototype is [Object.prototype].  A list with a repeated key
    stands for no object; a property read takes the first occurrence. *)
Inductive value : Type :=
| VUndefined
| VNull
| VBool (b : bool)
| VNum (n : spec_float)
| VStr (s : string)
| VFun (name : string)
| VObj (props : list (string * value))
| VBigInt (z : Z)
| VSymbol (description : string).

(** How an operation ends.  [OutOfModel] marks an operation on an operand
    for which the embedding does not say what the runtime does (a property
    read on a boxed primitive, a call of a user-supplied method, a key that
    is not a string). *)
Inductive exn : Type := TypeError.

Inductive outcome (A : Type) : Type :=
| Ret (a : A)
| Throw (e : exn)
| OutOfModel.

Arguments Ret {A} a.
Arguments Throw {A} e.
Arguments OutOfModel {A}.

(** [!x] is [negb (ToBoolean x)]. *)
Definition ToBoolean (v : value) : bool :=
  match v with
  | VUndefined | VNull => false
  | VBool b => b
  | VNum (S754_zero _) | VNum S754_nan => false
  | VNum _ => true
  | VStr s => negb (s =? "")
  | VFun _ | VObj _ | VSymbol _ => true
  | VBigInt z => negb (z =? 0)%Z
  end.

Definition typeof (v : value) : string :=
  match v with
  | VUndefined => "undefined"
  | VNull => "object"
  | VBool _ => "boolean"
  | VNum _ => "number"
  | VStr _ => "string"
  | VFun _ => "function"
  | VObj _ => "object"
  | VBigInt _ => "bigint"
  | VSymbol _ => "symbol"
  end.

(** [v == null]. *)
Definition eq_null (v : value) : bool :=
  match v with
  | VUndefined | VNull => true
  | _ => false
  end.

(** [s === v] for a string [s]. *)
Definition strict_eq_string (s : string) (v : value) : bool :=
  match v with
  | VStr t => s =? t
  | _ => false
  end.

(** The own property [k] of a property list. *)
Fixpoint own (props : list (string * value)) (k : string) : option value :=
  match props with
  | [] => None
  | (k', v) :: rest => if k' =? k then Some v else own rest k
  end.

(** The properties every ordinary object inherits from [Object.prototype]
    (ECMAScript 2015 and later, Annex B included).  [__proto__] reads as
    the prototype object itself, which has no enumerable property. *)
Definition Object_prototype : list (string * value) :=
  [ ("constructor", VFun "Object");
    ("hasOwnProperty", VFun "hasOwnProperty");
    ("isPrototypeOf", VFun "isPrototypeOf");
    ("propertyIsEnumerable", VFun "propertyIsEnumerable");
    ("toLocaleString", VFun "toLocaleString");
    ("toString", VFun "toString");
    ("valueOf", VFun "valueOf");
    ("__defineGetter__", VFun "__defineGetter__");
    ("__defineSetter__", VFun "__defineSetter__");
    ("__lookupGetter__", VFun "__lookupGetter__");
    ("__lookupSetter__", VFun "__lookupSetter__");
    ("__proto__", VObj []) ].

(** [props[k]] on an ordinary object: the own property, else the inherited
    one, else [undefined]. *)
Definition lookup (props : list (string * value)) (k : string) : value :=
  match own props k with
  | Some v => v
  | None =>
      match own Object_prototype k with
      | Some v => v
      | None => VUndefined
      end
  end.

(** [o.k] and [o[k]] for a string [k]. *)
Definition get (o : value) (k : string) : outcome value :=
  match o with
  | VUndefined | VNull => Throw TypeError
  | VObj props => Ret (lookup props k)
  | VBool _ | VNum _ | VStr _ | VFun _ | VBigInt _ | VSymbol _ => OutOfModel
  end.

(** [o[k]] for a computed key. *)
Definition get_computed (o k : value) : outcome value :=
  match k with
  | VStr s => get o s
  | _ => match o with
         | VUndefined | VNull => Throw TypeError
         | _ => OutOfModel
         end
  end.

(** [Object.entries(o)]. *)
Definition Object_entries (o : value) : outcome (list (string * value)) :=
  match o with
  | VUndefined | VNull => Throw TypeError
  | VObj props => Ret props
  | VBool _ | VNum _ | VBigInt _ | VSymbol _ => Ret []
  | VStr _ | VFun _ => OutOfModel
  end.

(** [String.prototype.toLowerCase] on strings whose code units are below
    256: the letters A-Z and the Latin-1 capitals U+00C0-U+00DE (U+00D7,
    the multiplication sign, apart) move up by 32; nothing else changes. *)
Definition is_upper (c : ascii) : bool :=
  let n := nat_of_ascii c in
  ((65 <=? n) && (n <=? 90)
   || (192 <=? n) && (n <=? 214)
   || (216 <=? n) && (n <=? 222))%nat.

Definition lower_unit (c : ascii) : ascii :=
  if is_upper c then ascii_of_nat (nat_of_ascii c + 32) else c.

Fixpoint toLowerCase (s : string) : string :=
  match s with
  | EmptyString => EmptyString
  | String c rest => String (lower_unit c) (toLowerCase rest)
  end.

(** The method call [v.toLowerCase()]. *)
Definition call_toLowerCase (v : value) : outcome string :=
  match v with
  | VStr s => Ret (toLowerCase s)
  | VUndefined | VNull | VBool _ | VNum _ | VBigInt _ | VSymbol _ =>
      Throw TypeError
  | VFun _ | VObj _ => OutOfModel
  end.


End JS.

Import JS.

(** ** The monad of the validators: diagnostics and abrupt completion *)

(** One call of [logger.err(message, ...values)]. *)
Record diagnostic : Type := Diag {
  message : string;
  values : list value
}.

Definition M (A : Type) : Type := (outcome A * list diagnostic)%type.

Definition ret {A} (a : A) : M A := (Ret a, []).

Definition lift {A} (o : outcome A) : M A := (o, []).

Definition bind {A B} (m : M A) (f : A -> M B) : M B :=
  match m with
  | (Ret a, log) => let (r, log') := f a in (r, (log ++ log')%list)
  | (Throw e, log) => (Throw e, log)
  | (OutOfModel, log) => (OutOfModel, log)
  end.

Declare Scope js_scope.
Delimit Scope js_scope with js.
Notation "x <- m ;; k" := (bind m (fun x => k))
  (at level 100, m at next level, right associativity) : js_scope.
Notation "m ;; k" := (bind m (fun _ => k))
  (at level 100, right associativity) : js_scope.
Open Scope js_scope.

(** What a call returned, and what it logged. *)
Definition verdict {A} (m : M A) : outcome A := fst m.
Definition diagnostics {A} (m : M A) : list diagnostic := snd m.

(** Modelled from the spec: the diagnostic sink [logger.err] of
    [@nova-registry/logger], which is not part of the sources.  It records
    the message and the values, returns nothing, does not throw and does
    not affect control flow. *)
Definition logger_err (msg : string) (vals : list value) : M unit :=
  (Ret tt, [Diag msg vals]).

(** [a || b] where the right operand has effects. *)
Definition orM (a : bool) (b : M bool) : M bool :=
  if a then ret true else b.

(** [!b] for an operand with effects. *)
Definition notM (b : M bool) : M bool :=
  r <- b ;; ret (negb r).

(** [for (const a of l) body]: the body yields [Some r] when it executes
    [return r], and [None] when it runs to its end. *)
Fixpoint for_of {A R} (l : list A) (body : A -> M (option R)) : M (option R) :=
  match l with
  | [] => ret None
  | a :: rest =>
      r <- body a ;;
      match r with
      | Some b => ret (Some b)
      | None => for_of rest body
      end
  end.

Definition neqb (s t : string) : bool := negb (s =? t).
Infix "!=?" := neqb (at level 70) : js_scope.

(** A statement that may execute [return], followed by the rest of the
    function body. *)
Definition and_then {R} (stmt : M (option R)) (rest : M R) : M R :=
  r <- stmt ;;
  match r with
  | Some b => ret b
  | None => rest
  end.

(** ** The validators of namespace [json] *)

Module json.

Section Validators.

(** [semver_valid s] is the truth value of [semver.valid(s)] for a string
    [s]; the package [semver] is not part of the sources, and the
    validators are embedded for an arbitrary checker. *)
Variable semver_valid : string -> bool.

Definition call_semver_valid (v : value) : M bool :=
  match v with
  | VStr s => ret (semver_valid s)
  | _ => lift OutOfModel
  end.

Definition isPackageExport (x : value) : M bool :=
  if negb (ToBoolean x) || (typeof x !=? "object") then
    logger_err "Invalid PackageExport: not an object." [] ;;
    ret false
  else
    main <- lift (get x "main") ;;
    types <- lift (get x "types") ;;
    if negb (ToBoolean main) || (typeof main !=? "string") then
      logger_err "Invalid PackageExport.main: expected string, got:" [main] ;;
      ret false
    else if negb (eq_null types) && (typeof types !=? "string") then
      logger_err "Invalid PackageExport.types: expected string or null, got:" [types] ;;
      ret false
    else
      ret true.

Definition isPackageAuthor (x : value) : M bool :=
  if negb (ToBoolean x) || (typeof x !=? "object") then
    logger_err "Invalid PackageAuthor: not an object." [] ;;
    ret false
  else
    name <- lift (get x "name") ;;
    email <- lift (get x "email") ;;
    url <- lift (get x "url") ;;
    if negb (ToBoolean name) || (typeof name !=? "string") then
      logger_err "Invalid PackageAuthor.name: expected string, got:" [name] ;;
      ret false
    else if negb (eq_null email) && (typeof email !=? "string") then
      logger_err "Invalid PackageAuthor.email: expected string or null, got:" [email] ;;
      ret false
    else if negb (eq_null url) && (typeof url !=? "string") then
      logger_err "Invalid PackageAuthor.url: expected string or null, got:" [url] ;;
      ret false
    else
      ret true.

(** The body of the loop over [Object.entries(maintainers)]. *)
Definition maintainer_entry (e : string * value) : M (option bool) :=
  let (key, value) := e in
  bad <- orM (typeof (VStr key) !=? "string") (notM (isPackageAuthor value)) ;;
  if bad then
    logger_err ("Invalid maintainer entry for key '" ++ key ++ "':") [value] ;;
    ret (Some false)
  else
    ret None.

(** The body of the loop over [Object.entries(exports)]. *)
Definition export_entry (e : string * value) : M (option bool) :=
  let (key, value) := e in
  if typeof (VStr key) !=? "string" then
    logger_err "Invalid export key:" [VStr key] ;;
    ret (Some false)
  else
    ok <- isPackageExport value ;;
    if negb ok then
      logger_err ("Invalid PackageExport for key '" ++ key ++ "':") [value] ;;
      ret (Some false)
    else
      ret None.

Definition isPackage (x : value) : M bool :=
  if negb (ToBoolean x) || (typeof x !=? "object") then
    logger_err "Invalid Package: not an object." [] ;;
    ret false
  else
    name <- lift (get x "name") ;;
    version <- lift (get x "version") ;;
    description <- lift (get x "description") ;;
    author <- lift (get x "author") ;;
    maintainers <- lift (get x "maintainers") ;;
    exports <- lift (get x "exports") ;;
    name_bad <- orM (negb (ToBoolean name) || (typeof name !=? "string"))
                    (lowered <- lift (call_toLowerCase name) ;;
                     ret (negb (strict_eq_string lowered name))) ;;
    if name_bad then
      logger_err "Invalid Package.name: expected lowercase string, got:" [name] ;;
      ret false
    else
    version_bad <- orM (negb (ToBoolean version) || (typeof version !=? "string"))
                       (notM (call_semver_valid version)) ;;
    if version_bad then
      logger_err "Invalid Package.version: not a valid semver string, got:" [version] ;;
      ret false
    else if typeof description !=? "string" then
      logger_err "Invalid Package.description: expected string, got:" [description] ;;
      ret false
    else
    author_bad <- orM (negb (ToBoolean author) || (typeof author !=? "object"))
                      (notM (isPackageAuthor author)) ;;
    if author_bad then
      logger_err "Invalid Package.author." [] ;;
      ret false
    else
    and_then
      (if negb (eq_null maintainers) then
         if typeof maintainers !=? "object" then
           logger_err "Invalid Package.maintainers: expected object or null, got:"
                      [maintainers] ;;
           ret (Some false)
         else
           entries <- lift (Object_entries maintainers) ;;
           for_of entries maintainer_entry
       else ret None)
      (if negb (ToBoolean exports) || (typeof exports !=? "object") then
         logger_err "Invalid Package.exports: expected object, got:" [exports] ;;
         ret false
       else
         and_then
           (entries <- lift (Object_entries exports) ;;
            for_of entries export_entry)
           (ret true)).

(** The body of the loop over [Object.entries(versions)] in [isTagValid]:
    an invalid manifest ends the call without a diagnostic of its own. *)
Definition tag_version_entry (e : string * value) : M (option bool) :=
  let (key, value) := e in
  if typeof (VStr key) !=? "string" then
    logger_err "Invalid StringMap: key not a string." [] ;;
    ret (Some false)
  else
    ok <- isPackage value ;;
    if negb ok then ret (Some false) else ret None.

Definition isTagValid (tag versions : value) : M bool :=
  if negb (ToBoolean tag) || (typeof tag !=? "string") then
    logger_err "Invalid Parameter 'tag': not a string." [] ;;
    ret false
  else if negb (ToBoolean versions) || (typeof versions !=? "object") then
    logger_err "Invalid Parameter 'versions': not a StringMap of Packages" [] ;;
    ret false
  else
    and_then
      (entries <- lift (Object_entries versions) ;;
       for_of entries tag_version_entry)
      (found <- lift (get_computed versions tag) ;;
       if ToBoolean found then ret true else ret false).

(** The bodies of the two loops of [isRemotePackage]. *)
Definition version_entry (e : string * value) : M (option bool) :=
  let (key, value) := e in
  bad <- orM (typeof (VStr key) !=? "string") (notM (isPackage value)) ;;
  if bad then
    logger_err ("Invalid RemotePackage version '" ++ key ++ "':") [value] ;;
    ret (Some false)
  else
    ret None.

Definition tag_entry (versions : value) (e : string * value) : M (option bool) :=
  let (key, value) := e in
  bad <- orM ((typeof (VStr key) !=? "string") || (typeof value !=? "string"))
             (notM (isTagValid value versions)) ;;
  if bad then
    logger_err ("Invalid RemotePackage tag '" ++ key ++ "':") [value] ;;
    ret (Some false)
  else
    ret None.

Definition isRemotePackage (x : value) : M bool :=
  if negb (ToBoolean x) || (typeof x !=? "object") then
    logger_err "Invalid RemotePackage: not an object." [] ;;
    ret false
  else
    id <- lift (get x "id") ;;
    name <- lift (get x "name") ;;
    author <- lift (get x "author") ;;
    tags <- lift (get x "tags") ;;
    versions <- lift (get x "versions") ;;
    if negb (ToBoolean id) || (typeof id !=? "string") then
      logger_err "Invalid RemotePackage.id: expected string, got:" [id] ;;
      ret false
    else if negb (ToBoolean name) || (typeof name !=? "string") then
      logger_err "Invalid RemotePackage.name: expected string, got:" [name] ;;
      ret false
    else
    author_bad <- orM (negb (ToBoolean author) || (typeof author !=? "object"))
                      (notM (isPackageAuthor author)) ;;
    if author_bad then
      logger_err "Invalid RemotePackage.author." [] ;;
      ret false
    else if negb (ToBoolean versions) || (typeof versions !=? "object") then
      logger_err "Invalid RemotePackage.versions: expected object, got:" [versions] ;;
      ret false
    else
    and_then
      (entries <- lift (Object_entries versions) ;;
       for_of entries version_entry)
      (if negb (ToBoolean tags) || (typeof tags !=? "object") then
         logger_err "Invalid RemotePackage.tags: expected object, got:" [tags] ;;
         ret false
       else
         and_then
           (entries <- lift (Object_entries tags) ;;
            for_of entries (tag_entry versions))
           (ret true)).

End Validators.

End json.

Import json.

(** ** The semantic-version checker *)

Module SemVer.

Definition is_digit (c : ascii) : bool :=
  let n := nat_of_ascii c in ((48 <=? n) && (n <=? 57))%nat.

Definition is_letter (c : ascii) : bool :=
  let n := nat_of_ascii c in
  ((65 <=? n) && (n <=? 90) || (97 <=? n) && (n <=? 122))%nat.

(** A character of an identifier: a digit, a letter or the hyphen. *)
Definition is_ident_char (c : ascii) : bool :=
  is_digit c || is_letter c || (c =? "-")%char.

Fixpoint all_chars (p : ascii -> bool) (s : string) : bool :=
  match s with
  | EmptyString => true
  | String c rest => p c && all_chars p rest
  end.

(** The pieces of [s] between the occurrences of [sep]; there is always at
    least one piece. *)
Fixpoint split (sep : ascii) (s : string) : list string :=
  match s with
  | EmptyString => [EmptyString]
  | String c rest =>
      if (c =? sep)%char then EmptyString :: split sep rest
      else match split sep rest with
           | [] => [String c EmptyString]
           | piece :: pieces => String c piece :: pieces
           end
  end.

(** [s] cut at the first occurrence of [sep], when there is one. *)
Fixpoint cut (sep : ascii) (s : string) : string * option string :=
  match s with
  | EmptyString => (EmptyString, None)
  | String c rest =>
      if (c =? sep)%char then (EmptyString, Some rest)
      else let (before, after) := cut sep rest in (String c before, after)
  end.

Definition no_leading_zero (s : string) : bool :=
  match s with
  | String "0" (String _ _) => false
  | _ => true
  end.

(** Major, minor and patch: digits only, no leading zero. *)
Definition numeric_identifier (s : string) : bool :=
  negb (s =? "") && all_chars is_digit s && no_leading_zero s.

(** A prerelease identifier is alphanumeric; when it is numeric it has no
    leading zero. *)
Definition prerelease_identifier (s : string) : bool :=
  negb (s =? "") && all_chars is_ident_char s
  && (if all_chars is_digit s then no_leading_zero s else true).

Definition build_identifier (s : string) : bool :=
  negb (s =? "") && all_chars is_ident_char s.

Definition version_core (s : string) : bool :=
  match split "." s with
  | [major; minor; patch] =>
      numeric_identifier major && numeric_identifier minor
      && numeric_identifier patch
  | _ => false
  end.

Definition optional (p : string -> bool) (o : option string) : bool :=
  match o with
  | Some s => p s
  | None => true
  end.

(** Modelled from the spec: the operation [isValidSemVer] of the package
    [semver], which is not part of the sources.  It accepts the SemVer 2.0.0
    grammar [MAJOR.MINOR.PATCH[-prerelease][+build]]: numeric major, minor
    and patch, optional dot-separated alphanumeric prerelease identifiers,
    optional dot-separated build-metadata identifiers, and no leading zero
    in a numeric identifier. *)
Definition isValidSemVer (candidate : string) : bool :=
  let (version, build) := cut "+" candidate in
  let (core, prerelease) := cut "-" version in
  version_core core
  && optional (fun s => forallb prerelease_identifier (split "." s)) prerelease
  && optional (fun s => forallb build_identifier (split "." s)) build.

(** The limits of the package: the longest version string and the largest
    major, minor or patch number. *)
Definition MAX_LENGTH : nat := 256.
Definition MAX_SAFE_INTEGER : Z := 9007199254740991.

(** The white space and line terminators below U+0100 that
    [String.prototype.trim] removes. *)
Definition is_space (c : ascii) : bool :=
  let n := nat_of_ascii c in
  ((9 <=? n) && (n <=? 13) || (n =? 32) || (n =? 160))%nat.

Fixpoint trim_start (s : string) : string :=
  match s with
  | EmptyString => EmptyString
  | String c rest => if is_space c then trim_start rest else s
  end.

Fixpoint trim_end (s : string) : string :=
  match s with
  | EmptyString => EmptyString
  | String c rest =>
      match trim_end rest with
      | EmptyString => if is_space c then EmptyString else String c EmptyString
      | kept => String c kept
      end
  end.

Definition trim (s : string) : string := trim_end (trim_start s).

(** One leading [v] is allowed. *)
Definition strip_v (s : string) : string :=
  match s with
  | String "v" rest => rest
  | _ => s
  end.

(** The number a string of digits denotes. *)
Fixpoint number_of (s : string) (acc : Z) : Z :=
  match s with
  | EmptyString => acc
  | String c rest => number_of rest (10 * acc + Z.of_nat (nat_of_ascii c - 48))%Z
  end.

Definition safe_number (s : string) : bool :=
  (number_of s 0 <=? MAX_SAFE_INTEGER)%Z.

(** The truth value of [semver.valid(version)], the function of the npm
    package [semver] that [isPackage] calls, in its default (strict) mode.
    The package is not part of the sources; the definition follows the
    grammar the package publishes: a string of at most 256 characters is
    trimmed, may start with one [v], and must then be
    [MAJOR.MINOR.PATCH[-prerelease][+build]] as in SemVer 2.0.0, with major,
    minor and patch at most [Number.MAX_SAFE_INTEGER].  A valid string gives
    the normalised version, a non-empty string; any other gives [null]. *)
Definition valid (version : string) : bool :=
  (String.length version <=? MAX_LENGTH)%nat
  && (let s := strip_v (trim version) in
      isValidSemVer s
      && (let (rest, _) := cut "+" s in
          let (core, _) := cut "-" rest in
          forallb safe_number (split "." core))).

End SemVer.

(** ** Arrays and objects whose property reads run code

    The validators once more, on a wider range of arguments: arrays, and
    objects whose own properties may be accessors (or that are proxies with
    a [get] trap).  The functions are those of [index.ts] again; what
    changes is what a property read and [Object.entries] do. *)

Module Host.

(** An object is the list of its own enumerable properties in enumeration
    order, each with the way a read of it ends: [Ret v] for a data property
    of value [v] or a getter that returns [v], [Throw e] for a getter that
    throws.  An array is the list of its elements. *)
Inductive value : Type :=
| VUndefined
| VNull
| VBool (b : bool)
| VNum (n : spec_float)
| VStr (s : string)
| VFun (name : string)
| VObj (props : list (string * outcome value))
| VArr (items : list value)
| VBigInt (z : Z)
| VSymbol (description : string).

Definition ToBoolean (v : value) : bool :=
  match v with
  | VUndefined | VNull => false
  | VBool b => b
  | VNum (S754_zero _) | VNum S754_nan => false
  | VNum _ => true
  | VStr s => negb (s =? "")
  | VFun _ | VObj _ | VArr _ | VSymbol _ => true
  | VBigInt z => negb (z =? 0)%Z
  end.

Definition typeof (v : value) : string :=
  match v with
  | VUndefined => "undefined"
  | VNull => "object"
  | VBool _ => "boolean"
  | VNum _ => "number"
  | VStr _ => "string"
  | VFun _ => "function"
  | VObj _ | VArr _ => "object"
  | VBigInt _ => "bigint"
  | VSymbol _ => "symbol"
  end.

Definition eq_null (v : value) : bool :=
  match v with
  | VUndefined | VNull => true
  | _ => false
  end.

Definition strict_eq_string (s : string) (v : value) : bool :=
  match v with
  | VStr t => s =? t
  | _ => false
  end.

(** The first entry of key [k] in an association list. *)
Fixpoint assoc {A} (l : list (string * A)) (k : string) : option A :=
  match l with
  | [] => None
  | (k', a) :: rest => if k' =? k then Some a else assoc rest k
  end.

Definition Object_prototype : list (string * value) :=
  [ ("constructor", VFun "Object");
    ("hasOwnProperty", VFun "hasOwnProperty");
    ("isPrototypeOf", VFun "isPrototypeOf");
    ("propertyIsEnumerable", VFun "propertyIsEnumerable");
    ("toLocaleString", VFun "toLocaleString");
    ("toString", VFun "toString");
    ("valueOf", VFun "valueOf");
    ("__defineGetter__", VFun "__defineGetter__");
    ("__defineSetter__", VFun "__defineSetter__");
    ("__lookupGetter__", VFun "__lookupGetter__");
    ("__lookupSetter__", VFun "__lookupSetter__");
    ("__proto__", VObj []) ].

(** What a read finds in a prototype: the property, else [undefined]. *)
Definition inherited (proto : list (string * value)) (k : string) : value :=
  match assoc proto k with
  | Some v => v
  | None => VUndefined
  end.

(** The key of the element of index [i], and the elements of an array with
    their keys. *)
Definition index_key (i : nat) : string :=
  NilEmpty.string_of_uint (Nat.to_uint i).

Definition array_entries (items : list value) : list (string * value) :=
  combine (map index_key (seq 0 (List.length items))) items.

(** The number [n] as a double. *)
Definition number_of_nat (n : nat) : spec_float :=
  binary_normalize 53 1024 (Z.of_nat n) 0 false.


(** [Object.entries] reads the properties in order and stops at the first
    read that throws. *)
Fixpoint read_all (props : list (string * outcome value))
  : outcome (list (string * value)) :=
  match props with
  | [] => Ret []
  | (k, Ret v) :: rest =>
      match read_all rest with
      | Ret entries => Ret ((k, v) :: entries)
      | Throw e => Throw e
      | OutOfModel => OutOfModel
      end
  | (_, Throw e) :: _ => Throw e
  | (_, OutOfModel) :: _ => OutOfModel
  end.

Definition Object_entries (o : value) : outcome (list (string * value)) :=
  match o with
  | VUndefined | VNull => Throw TypeError
  | VObj props => read_all props
  | VArr items => Ret (array_entries items)
  | VBool _ | VNum _ | VBigInt _ | VSymbol _ => Ret []
  | VStr _ | VFun _ => OutOfModel
  end.

Definition call_toLowerCase (v : value) : outcome string :=
  match v with
  | VStr s => Ret (toLowerCase s)
  | VUndefined | VNull | VBool _ | VNum _ | VBigInt _ | VSymbol _ =>
      Throw TypeError
  | VFun _ | VObj _ | VArr _ => OutOfModel
  end.

(** No property read throws, in the value or in what it holds. *)
Fixpoint quiet (v : value) : Prop :=
  match v with
  | VObj props =>
      (fix all_quiet (l : list (string * outcome value)) : Prop :=
         match l with
         | [] => True
         | (_, Ret w) :: rest => quiet w /\ all_quiet rest
         | (_, _) :: _ => False
         end) props
  | VArr items =>
      (fix all_quiet (l : list value) : Prop :=
         match l with
         | [] => True
         | w :: rest => quiet w /\ all_quiet rest
         end) items
  | _ => True
  end.

(** The monad, with diagnostics that hold these values. *)
Record diagnostic : Type := Diag {
  message : string;
  values : list value
}.

Definition M (A : Type) : Type := (outcome A * list diagnostic)%type.

Definition ret {A} (a : A) : M A := (Ret a, []).

Definition lift {A} (o : outcome A) : M A := (o, []).

Definition bind {A B} (m : M A) (f : A -> M B) : M B :=
  match m with
  | (Ret a, log) => let (r, log') := f a in (r, (log ++ log')%list)
  | (Throw e, log) => (Throw e, log)
  | (OutOfModel, log) => (OutOfModel, log)
  end.

Declare Scope host_scope.
Notation "x <- m ;; k" := (bind m (fun x => k))
  (at level 100, m at next level, right associativity) : host_scope.
Notation "m ;; k" := (bind m (fun _ => k))
  (at level 100, right associativity) : host_scope.
#[local] Open Scope host_scope.

Definition verdict {A} (m : M A) : outcome A := fst m.

(** Modelled from the spec: the diagnostic sink [logger.err], as before. *)
Definition logger_err (msg : string) (vals : list value) : M unit :=
  (Ret tt, [Diag msg vals]).

Definition orM (a : bool) (b : M bool) : M bool :=
  if a then ret true else b.

Definition notM (b : M bool) : M bool :=
  r <- b ;; ret (negb r).

Fixpoint for_of {A R} (l : list A) (body : A -> M (option R)) : M (option R) :=
  match l with
  | [] => ret None
  | a :: rest =>
      r <- body a ;;
      match r with
      | Some b => ret (Some b)
      | None => for_of rest body
      end
  end.

Definition and_then {R} (stmt : M (option R)) (rest : M R) : M R :=
  r <- stmt ;;
  match r with
  | Some b => ret b
  | None => rest
  end.

Section Validators.

Variable semver_valid : string -> bool.

(** The methods arrays inherit from [Array.prototype]; the set depends on
    the edition of the language the engine implements. *)
Variable Array_prototype : list (string * value).

(** [o.k] and [o[k]] for a string [k]: an own property of an object is read
    through its getter; an array has its elements and [length]; then the
    prototypes. *)
Definition get (o : value) (k : string) : outcome value :=
  match o with
  | VUndefined | VNull => Throw TypeError
  | VObj props =>
      match assoc props k with
      | Some read => read
      | None => Ret (inherited Object_prototype k)
      end
  | VArr items =>
      match assoc (array_entries items) k with
      | Some v => Ret v
      | None =>
          if k =? "length" then Ret (VNum (number_of_nat (List.length items)))
          else match assoc Array_prototype k with
               | Some v => Ret v
               | None => Ret (inherited Object_prototype k)
               end
      end
  | VBool _ | VNum _ | VStr _ | VFun _ | VBigInt _ | VSymbol _ => OutOfModel
  end.

Definition get_computed (o k : value) : outcome value :=
  match k with
  | VStr s => get o s
  | _ => match o with
         | VUndefined | VNull => Throw TypeError
         | _ => OutOfModel
         end
  end.

Definition call_semver_valid (v : value) : M bool :=
  match v with
  | VStr s => ret (semver_valid s)
  | _ => lift OutOfModel
  end.

Definition isPackageExport (x : value) : M bool :=
  if negb (ToBoolean x) || (typeof x !=? "object") then
    logger_err "Invalid PackageExport: not an object." [] ;;
    ret false
  else
    main <- lift (get x "main") ;;
    types <- lift (get x "types") ;;
    if negb (ToBoolean main) || (typeof main !=? "string") then
      logger_err "Invalid PackageExport.main: expected string, got:" [main] ;;
      ret false
    else if negb (eq_null types) && (typeof types !=? "string") then
      logger_err "Invalid PackageExport.types: expected string or null, got:" [types] ;;
      ret false
    else
      ret true.

Definition isPackageAuthor (x : value) : M bool :=
  if negb (ToBoolean x) || (typeof x !=? "object") then
    logger_err "Invalid PackageAuthor: not an object." [] ;;
    ret false
  else
    name <- lift (get x "name") ;;
    email <- lift (get x "email") ;;
    url <- lift (get x "url") ;;
    if negb (ToBoolean name) || (typeof name !=? "string") then
      logger_err "Invalid PackageAuthor.name: expected string, got:" [name] ;;
      ret false
    else if negb (eq_null email) && (typeof email !=? "string") then
      logger_err "Invalid PackageAuthor.email: expected string or null, got:" [email] ;;
      ret false
    else if negb (eq_null url) && (typeof url !=? "string") then
      logger_err "Invalid PackageAuthor.url: expected string or null, got:" [url] ;;
      ret false
    else
      ret true.

Definition maintainer_entry (e : string * value) : M (option bool) :=
  let (key, value) := e in
  bad <- orM (typeof (VStr key) !=? "string") (notM (isPackageAuthor value)) ;;
  if bad then
    logger_err ("Invalid maintainer entry for key '" ++ key ++ "':") [value] ;;
    ret (Some false)
  else
    ret None.

Definition export_entry (e : string * value) : M (option bool) :=
  let (key, value) := e in
  if typeof (VStr key) !=? "string" then
    logger_err "Invalid export key:" [VStr key] ;;
    ret (Some false)
  else
    ok <- isPackageExport value ;;
    if negb ok then
      logger_err ("Invalid PackageExport for key '" ++ key ++ "':") [value] ;;
      ret (Some false)
    else
      ret None.

Definition isPackage (x : value) : M bool :=
  if negb (ToBoolean x) || (typeof x !=? "object") then
    logger_err "Invalid Package: not an object." [] ;;
    ret false
  else
    name <- lift (get x "name") ;;
    version <- lift (get x "version") ;;
    description <- lift (get x "description") ;;
    author <- lift (get x "author") ;;
    maintainers <- lift (get x "maintainers") ;;
    exports <- lift (get x "exports") ;;
    name_bad <- orM (negb (ToBoolean name) || (typeof name !=? "string"))
                    (lowered <- lift (call_toLowerCase name) ;;
                     ret (negb (strict_eq_string lowered name))) ;;
    if name_bad then
      logger_err "Invalid Package.name: expected lowercase string, got:" [name] ;;
      ret false
    else
    version_bad <- orM (negb (ToBoolean version) || (typeof version !=? "string"))
                       (notM (call_semver_valid version)) ;;
    if version_bad then
      logger_err "Invalid Package.version: not a valid semver string, got:" [version] ;;
      ret false
    else if typeof description !=? "string" then
      logger_err "Invalid Package.description: expected string, got:" [description] ;;
      ret false
    else
    author_bad <- orM (negb (ToBoolean author) || (typeof author !=? "object"))
                      (notM (isPackageAuthor author)) ;;
    if author_bad then
      logger_err "Invalid Package.author." [] ;;
      ret false
    else
    and_then
      (if negb (eq_null maintainers) then
         if typeof maintainers !=? "object" then
           logger_err "Invalid Package.maintainers: expected object or null, got:"
                      [maintainers] ;;
           ret (Some false)
         else
           entries <- lift (Object_entries maintainers) ;;
           for_of entries maintainer_entry
       else ret None)
      (if negb (ToBoolean exports) || (typeof exports !=? "object") then
         logger_err "Invalid Package.exports: expected object, got:" [exports] ;;
         ret false
       else
         and_then
           (entries <- lift (Object_entries exports) ;;
            for_of entries export_entry)
           (ret true)).

Definition tag_version_entry (e : string * value) : M (option bool) :=
  let (key, value) := e in
  if typeof (VStr key) !=? "string" then
    logger_err "Invalid StringMap: key not a string." [] ;;
    ret (Some false)
  else
    ok <- isPackage value ;;
    if negb ok then ret (Some false) else ret None.

Definition isTagValid (tag versions : value) : M bool :=
  if negb (ToBoolean tag) || (typeof tag !=? "string") then
    logger_err "Invalid Parameter 'tag': not a string." [] ;;
    ret false
  else if negb (ToBoolean versions) || (typeof versions !=? "object") then
    logger_err "Invalid Parameter 'versions': not a StringMap of Packages" [] ;;
    ret false
  else
    and_then
      (entries <- lift (Object_entries versions) ;;
       for_of entries tag_version_entry)
      (found <- lift (get_computed versions tag) ;;
       if ToBoolean found then ret true else ret false).

Definition version_entry (e : string * value) : M (option bool) :=
  let (key, value) := e in
  bad <- orM (typeof (VStr key) !=? "string") (notM (isPackage value)) ;;
  if bad then
    logger_err ("Invalid RemotePackage version '" ++ key ++ "':") [value] ;;
    ret (Some false)
  else
    ret None.

Definition tag_entry (versions : value) (e : string * value) : M (option bool) :=
  let (key, value) := e in
  bad <- orM ((typeof (VStr key) !=? "string") || (typeof value !=? "string"))
             (notM (isTagValid value versions)) ;;
  if bad then
    logger_err ("Invalid RemotePackage tag '" ++ key ++ "':") [value] ;;
    ret (Some false)
  else
    ret None.

Definition isRemotePackage (x : value) : M bool :=
  if negb (ToBoolean x) || (typeof x !=? "object") then
    logger_err "Invalid RemotePackage: not an object." [] ;;
    ret false
  else
    id <- lift (get x "id") ;;
    name <- lift (get x "name") ;;
    author <- lift (get x "author") ;;
    tags <- lift (get x "tags") ;;
    versions <- lift (get x "versions") ;;
    if negb (ToBoolean id) || (typeof id !=? "string") then
      logger_err "Invalid RemotePackage.id: expected string, got:" [id] ;;
      ret false
    else if negb (ToBoolean name) || (typeof name !=? "string") then
      logger_err "Invalid RemotePackage.name: expected string, got:" [name] ;;
      ret false
    else
    author_bad <- orM (negb (ToBoolean author) || (typeof author !=? "object"))
                      (notM (isPackageAuthor author)) ;;
    if author_bad then
      logger_err "Invalid RemotePackage.author." [] ;;
      ret false
    else if negb (ToBoolean versions) || (typeof versions !=? "object") then
      logger_err "Invalid RemotePackage.versions: expected object, got:" [versions] ;;
      ret false
    else
    and_then
      (entries <- lift (Object_entries versions) ;;
       for_of entries version_entry)
      (if negb (ToBoolean tags) || (typeof tags !=? "object") then
         logger_err "Invalid RemotePackage.tags: expected object, got:" [tags] ;;
         ret false
       else
         and_then
           (entries <- lift (Object_entries tags) ;;
            for_of entries (tag_entry versions))
           (ret true)).

End Validators.

(** The call ends normally, with a boolean. *)
Definition returns_boolean (m : M bool) : Prop :=
  exists b, verdict m = Ret b.

(** The call ends normally with a result that satisfies [P]. *)
Definition yields {A} (P : A -> Prop) (m : M A) : Prop :=
  exists a log, m = (Ret a, log) /\ P a.

(** The call ends normally. *)
Definition ends {A} (m : M A) : Prop := yields (fun _ => True) m.

(** The values the guard [!x || typeof x !== "object"] lets through. *)
Definition is_object (x : value) : bool :=
  match x with
  | VObj _ | VArr _ => true
  | _ => false
  end.

(** The methods of [Array.prototype] in ECMAScript 2023. *)
Definition Array_prototype_2023 : list (string * value) :=
  map (fun name => (name, VFun name))
    ["at"; "concat"; "constructor"; "copyWithin"; "entries"; "every"; "fill";
     "filter"; "find"; "findIndex"; "findLast"; "findLastIndex"; "flat";
     "flatMap"; "forEach"; "includes"; "indexOf"; "join"; "keys";
     "lastIndexOf"; "map"; "pop"; "push"; "reduce"; "reduceRight"; "reverse";
     "shift"; "slice"; "some"; "sort"; "splice"; "toLocaleString";
     "toReversed"; "toSorted"; "toSpliced"; "toString"; "unshift"; "values";
     "with"].

(** The object [{ get main() { return null.entry; } }]: reading [main]
    throws a [TypeError]. *)
Definition throwing_main : value :=
  VObj [("main", Throw TypeError)].

(** The object [{ name: "Jane Doe", get email() { return null.address; } }]. *)
Definition throwing_email : value :=
  VObj [("name", Ret (VStr "Jane Doe")); ("email", Throw TypeError)].

(** A record with an array of one manifest as [versions], and [latest] at
    [length]. *)
Definition author : value := VObj [("name", Ret (VStr "Jane Doe"))].

Definition manifest : value :=
  VObj [("name", Ret (VStr "left-pad")); ("version", Ret (VStr "1.0.0"));
        ("description", Ret (VStr "String padding")); ("author", Ret author);
        ("exports", Ret (VArr []))].

Definition versions_array : value := VArr [manifest].

Definition record_with_array : value :=
  VObj [("id", Ret (VStr "abc123")); ("name", Ret (VStr "left-pad"));
        ("author", Ret author); ("versions", Ret versions_array);
        ("tags", Ret (VObj [("latest", Ret (VStr "length"))]))].

End Host.

(** ** What the validators decide, as plain boolean functions

    Each validator is compared below with a function on values that has no
    effect and cannot throw: the validator ends normally with that boolean,
    and logs nothing when it is [true]. *)

Module Shape.

Section Shapes.

Variable semver_valid : string -> bool.

Definition is_string (v : value) : bool := typeof v =? "string".

(** A required string that is not empty. *)
Definition required_string (v : value) : bool := ToBoolean v && is_string v.

(** An optional string: absent, [null], or a string. *)
Definition optional_string (v : value) : bool := eq_null v || is_string v.

Definition all_values (p : value -> bool) (props : list (string * value)) : bool :=
  forallb (fun e => p (snd e)) props.

Definition export_ok (x : value) : bool :=
  match x with
  | VObj props =>
      required_string (lookup props "main")
      && optional_string (lookup props "types")
  | _ => false
  end.

Definition author_ok (x : value) : bool :=
  match x with
  | VObj props =>
      required_string (lookup props "name")
      && optional_string (lookup props "email")
      && optional_string (lookup props "url")
  | _ => false
  end.

Definition name_ok (name : value) : bool :=
  match name with
  | VStr s => negb (s =? "") && (toLowerCase s =? s)
  | _ => false
  end.

Definition version_ok (version : value) : bool :=
  match version with
  | VStr s => negb (s =? "") && semver_valid s
  | _ => false
  end.

Definition maintainers_ok (maintainers : value) : bool :=
  match maintainers with
  | VUndefined | VNull => true
  | VObj props => all_values author_ok props
  | _ => false
  end.

Definition exports_ok (exports : value) : bool :=
  match exports with
  | VObj props => all_values export_ok props
  | _ => false
  end.

Definition package_ok (x : value) : bool :=
  match x with
  | VObj props =>
      name_ok (lookup props "name")
      && version_ok (lookup props "version")
      && is_string (lookup props "description")
      && author_ok (lookup props "author")
      && maintainers_ok (lookup props "maintainers")
      && exports_ok (lookup props "exports")
  | _ => false
  end.

Definition tag_ok (tag versions : value) : bool :=
  match tag, versions with
  | VStr s, VObj props =>
      negb (s =? "") && all_values package_ok props && ToBoolean (lookup props s)
  | _, _ => false
  end.

Definition versions_ok (versions : value) : bool :=
  match versions with
  | VObj props => all_values package_ok props
  | _ => false
  end.

Definition tags_ok (versions tags : value) : bool :=
  match tags with
  | VObj props => all_values (fun v => is_string v && tag_ok v versions) props
  | _ => false
  end.

Definition remote_ok (x : value) : bool :=
  match x with
  | VObj props =>
      required_string (lookup props "id")
      && required_string (lookup props "name")
      && author_ok (lookup props "author")
      && versions_ok (lookup props "versions")
      && tags_ok (lookup props "versions") (lookup props "tags")
  | _ => false
  end.

End Shapes.

End Shape.

Import Shape.

(** [set props k v] is the object [props] with its property [k] set to [v]
    (what [{...props, [k]: v}] builds). *)
Fixpoint set (props : list (string * value)) (k : string) (v : value)
  : list (string * value) :=
  match props with
  | [] => [(k, v)]
  | (k', v') :: rest =>
      if k' =? k then (k, v) :: rest else (k', v') :: set rest k v
  end.

(** A call decides [b]: it ends normally with [b], and it has logged
    nothing when [b] is [true]. *)
Definition decides (m : M bool) (b : bool) : Prop :=
  verdict m = Ret b /\ (b = true -> diagnostics m = []).

(** A statement passes when [ok]: it ends normally, with [return false]
    unless [ok], and it has logged nothing when it passes. *)
Definition passes (m : M (option bool)) (ok : bool) : Prop :=
  verdict m = Ret (if ok then None else Some false)
  /\ (ok = true -> diagnostics m = []).

(** A manifest is valid apart from [field] when some value of that field
    makes [isPackage] accept it. *)
Definition valid_apart_from (semver_valid : string -> bool) (field : string)
    (props : list (string * value)) : Prop :=
  exists v, verdict (isPackage semver_valid (VObj (set props field v))) = Ret true.

(** The property [k] is absent from the object, or explicitly [null]. *)
Definition absent_or_null (props : list (string * value)) (k : string) : Prop :=
  own props k = None \/ own props k = Some VNull.

(** The call ends normally, with a boolean: it neither throws nor leaves
    the operations the embedding covers. *)
Definition returns_boolean (m : M bool) : Prop :=
  exists b, verdict m = Ret b.

(** The record [{id, name, author, versions, tags}]. *)
Definition remote_package (id name author versions tags : value) : value :=
  VObj [("id", id); ("name", name); ("author", author);
        ("versions", versions); ("tags", tags)].

(** ** Sample values *)

Module Sample.

Definition author : value :=
  VObj [("name", VStr "Jane Doe"); ("email", VStr "jane@example.org")].

Definition dot_export : value :=
  VObj [(".", VObj [("main", VStr "index.js")])].

Definition manifest_of (name version : string) : list (string * value) :=
  [("name", VStr name); ("version", VStr version);
   ("description", VStr "String padding"); ("author", author);
   ("exports", dot_export)].

Definition manifest : value := VObj (manifest_of "left-pad" "1.0.0").

Definition left_pad (tags : value) : value :=
  remote_package (VStr "abc123") (VStr "left-pad") author
                 (VObj [("1.0.0", manifest)]) tags.

(** The property list of the empty object [{}]. *)
Definition no_property : list (string * value) := [].

(** A record with neither versions nor tags. *)
Definition unpublished : value :=
  remote_package (VStr "abc123") (VStr "left-pad") author
                 (VObj no_property) (VObj no_property).

End Sample.

(** ** Vocabulary of the further properties *)

(** A value the guard [!v || typeof v !== "string"] lets through. *)
Definition nonempty_string (v : value) : Prop :=
  exists s, v = VStr s /\ s <> "".

(** A value the guard [v != null && typeof v !== "string"] lets through. *)
Definition string_or_nullish (v : value) : Prop :=
  v = VUndefined \/ v = VNull \/ exists s, v = VStr s.

(** A name the first check of [isPackage] lets through. *)
Definition lowercase_name (v : value) : Prop :=
  exists s, v = VStr s /\ s <> "" /\ toLowerCase s = s.

Definition every_value (P : value -> Prop) (props : list (string * value)) : Prop :=
  forall k v, In (k, v) props -> P v.

Definition accepted (m : M bool) : Prop := verdict m = Ret true.

Definition refused (m : M bool) : Prop := verdict m = Ret false.

(** The number of calls of [logger.err] during a call. *)
Definition logged {A} (m : M A) : nat := List.length (diagnostics m).

(** The properties each validator destructures from its argument. *)
Definition export_fields : list string := ["main"; "types"].
Definition author_fields : list string := ["name"; "email"; "url"].
Definition package_fields : list string :=
  ["name"; "version"; "description"; "author"; "maintainers"; "exports"].
Definition remote_fields : list string :=
  ["id"; "name"; "author"; "tags"; "versions"].

(** Two objects read alike at every property of [fields]. *)
Definition agree (fields : list string) (props props' : list (string * value))
  : Prop :=
  forall k, In k fields -> lookup props k = lookup props' k.

(** A call reports [b]: it ends normally with [b], with no diagnostic when
    [b] is [true] and between [lo] and [hi] diagnostics otherwise. *)
Definition reports (m : M bool) (b : bool) (lo hi : nat) : Prop :=
  verdict m = Ret b
  /\ (b = true -> diagnostics m = [])
  /\ (b = false -> lo <= logged m <= hi).

Definition reports_stmt (m : M (option bool)) (ok : bool) (lo hi : nat) : Prop :=
  verdict m = Ret (if ok then None else Some false)
  /\ (ok = true -> diagnostics m = [])
  /\ (ok = false -> lo <= logged m <= hi).

(** ** Properties of the monad and of the loops *)

Lemma bind_ret {A B} (a : A) (f : A -> M B) : bind (ret a) f = f a.
Proof. unfold bind, ret. destruct (f a); reflexivity. Qed.

Lemma bind_lift_ret {A B} (a : A) (f : A -> M B) : bind (lift (Ret a)) f = f a.
Proof. apply bind_ret. Qed.

Lemma decides_inv (m : M bool) (b : bool) :
  decides m b -> exists log, m = (Ret b, log) /\ (b = true -> log = []).
Proof.
  destruct m as [o log]. intros [Hv Hd]. cbn in *. subst o.
  exists log. auto.
Qed.

Lemma passes_inv (m : M (option bool)) (ok : bool) :
  passes m ok ->
  exists log, m = (Ret (if ok then None else Some false), log)
              /\ (ok = true -> log = []).
Proof.
  destruct m as [o log]. intros [Hv Hd]. cbn in *. subst o.
  exists log. auto.
Qed.

Lemma for_of_passes {A} (p : A -> bool) (body : A -> M (option bool)) (l : list A) :
  (forall a, In a l -> passes (body a) (p a)) ->
  passes (for_of l body) (forallb p l).
Proof.
  induction l as [|a l IH]; intros Hbody.
  - split; reflexivity.
  - destruct (passes_inv _ _ (Hbody a (or_introl eq_refl))) as (log & Ha & Hlog).
    specialize (IH (fun b Hb => Hbody b (or_intror Hb))).
    destruct (passes_inv _ _ IH) as (log' & Hl & Hlog').
    cbn [for_of forallb]. rewrite Ha. unfold bind.
    destruct (p a); cbn.
    + rewrite Hl. rewrite (Hlog eq_refl). split; cbn; auto.
    + split; cbn; [reflexivity | discriminate].
Qed.

(** ** Each validator decides its shape *)

(** The guards [!x || typeof x !== "object"] and
    [!x || typeof x !== "string"]. *)
Lemma guard_object (x : value) :
  negb (ToBoolean x) || (typeof x !=? "object")
  = match x with VObj _ => false | _ => true end.
Proof.
  destruct x as [| |b|n|s|f|ps|z|d]; try reflexivity.
  - destruct b; reflexivity.
  - destruct n; reflexivity.
  - destruct s; reflexivity.
  - destruct z; reflexivity.
Qed.

Lemma guard_string (x : value) :
  negb (ToBoolean x) || (typeof x !=? "string") = negb (required_string x).
Proof.
  unfold required_string, is_string.
  destruct x as [| |b|n|s|f|ps|z|d]; try reflexivity.
  - destruct b; reflexivity.
  - destruct n; reflexivity.
  - destruct s; reflexivity.
  - destruct z; reflexivity.
Qed.

Lemma guard_optional (x : value) :
  negb (eq_null x) && (typeof x !=? "string") = negb (optional_string x).
Proof.
  unfold optional_string, is_string.
  destruct x; reflexivity.
Qed.

Lemma and_then_decides (stmt : M (option bool)) (rest : M bool) (ok b : bool) :
  passes stmt ok -> (ok = true -> decides rest b) ->
  decides (and_then stmt rest) (ok && b).
Proof.
  intros Hs Hr.
  destruct (passes_inv _ _ Hs) as (log & -> & Hlog).
  unfold and_then, bind. destruct ok; cbn.
  - destruct (decides_inv _ _ (Hr eq_refl)) as (log' & -> & Hlog').
    rewrite (Hlog eq_refl). split; cbn; auto.
  - split; cbn; [reflexivity | discriminate].
Qed.

Ltac eval_call :=
  unfold decides, passes, verdict, diagnostics, bind, lift, ret, logger_err,
    orM, notM;
  cbn.

Ltac rejected := eval_call; split; [reflexivity | discriminate].

Section Decides.

Variable semver_valid : string -> bool.

Lemma isPackageExport_decides (x : value) :
  decides (isPackageExport x) (export_ok x).
Proof.
  unfold isPackageExport. rewrite guard_object.
  destruct x as [| |b|n|s|f|props|z|d]; try rejected.
  cbn [get export_ok]. rewrite !bind_lift_ret.
  rewrite guard_string, guard_optional.
  destruct (required_string _); [|rejected].
  destruct (optional_string _); [|rejected].
  split; reflexivity.
Qed.

Lemma isPackageAuthor_decides (x : value) :
  decides (isPackageAuthor x) (author_ok x).
Proof.
  unfold isPackageAuthor. rewrite guard_object.
  destruct x as [| |b|n|s|f|props|z|d]; try rejected.
  cbn [get author_ok]. rewrite !bind_lift_ret.
  rewrite guard_string, !guard_optional.
  destruct (required_string _); [|rejected].
  destruct (optional_string (lookup props "email")); [|rejected].
  destruct (optional_string (lookup props "url")); [|rejected].
  split; reflexivity.
Qed.

Lemma maintainer_entry_passes (e : string * value) :
  passes (maintainer_entry e) (author_ok (snd e)).
Proof.
  destruct e as [key v]. unfold maintainer_entry. cbn [snd].
  destruct (decides_inv _ _ (isPackageAuthor_decides v)) as (log & Hv & Hlog).
  unfold orM, notM. cbn [typeof neqb String.eqb Ascii.eqb Bool.eqb negb].
  rewrite Hv. destruct (author_ok v).
  - rewrite (Hlog eq_refl). split; reflexivity.
  - rejected.
Qed.

Lemma export_entry_passes (e : string * value) :
  passes (export_entry e) (export_ok (snd e)).
Proof.
  destruct e as [key v]. unfold export_entry. cbn [snd].
  destruct (decides_inv _ _ (isPackageExport_decides v)) as (log & Hv & Hlog).
  cbn [typeof neqb String.eqb Ascii.eqb Bool.eqb negb].
  rewrite Hv. destruct (export_ok v).
  - rewrite (Hlog eq_refl). split; reflexivity.
  - rejected.
Qed.

Lemma maintainers_passes (maintainers : value) :
  passes
    (if negb (eq_null maintainers) then
       if typeof maintainers !=? "object" then
         logger_err "Invalid Package.maintainers: expected object or null, got:"
                    [maintainers] ;;
         ret (Some false)
       else
         entries <- lift (Object_entries maintainers) ;;
         for_of entries maintainer_entry
     else ret None)
    (maintainers_ok maintainers).
Proof.
  destruct maintainers as [| |b|n|s|f|props|z|d];
    try rejected; try (split; reflexivity).
  cbn [eq_null negb typeof neqb String.eqb Ascii.eqb Bool.eqb Object_entries
       maintainers_ok].
  rewrite bind_lift_ret.
  apply for_of_passes. intros e _. apply maintainer_entry_passes.
Qed.

Lemma exports_decides (exports : value) :
  decides
    (if negb (ToBoolean exports) || (typeof exports !=? "object") then
       logger_err "Invalid Package.exports: expected object, got:" [exports] ;;
       ret false
     else
       and_then
         (entries <- lift (Object_entries exports) ;;
          for_of entries export_entry)
         (ret true))
    (exports_ok exports).
Proof.
  rewrite guard_object.
  destruct exports as [| |b|n|s|f|props|z|d]; try rejected.
  cbn [Object_entries exports_ok]. rewrite bind_lift_ret.
  rewrite <- (andb_true_r (all_values _ _)).
  apply and_then_decides.
  - apply for_of_passes. intros e _. apply export_entry_passes.
  - intros _. split; reflexivity.
Qed.

Lemma name_check (name : value) :
  orM (negb (ToBoolean name) || (typeof name !=? "string"))
      (lowered <- lift (call_toLowerCase name) ;;
       ret (negb (strict_eq_string lowered name)))
  = ret (negb (name_ok name)).
Proof.
  rewrite guard_string.
  destruct name as [| |b|n|s|f|props|z|d]; try reflexivity.
  - destruct b; reflexivity.
  - destruct n; reflexivity.
  - destruct s as [|c s]; reflexivity.
  - destruct z; reflexivity.
Qed.

Lemma version_check (version : value) :
  orM (negb (ToBoolean version) || (typeof version !=? "string"))
      (notM (call_semver_valid semver_valid version))
  = ret (negb (version_ok semver_valid version)).
Proof.
  rewrite guard_string.
  destruct version as [| |b|n|s|f|props|z|d]; try reflexivity.
  - destruct b; reflexivity.
  - destruct n; reflexivity.
  - destruct s as [|c s]; reflexivity.
  - destruct z; reflexivity.
Qed.

Lemma author_check (author : value) :
  exists log,
    orM (negb (ToBoolean author) || (typeof author !=? "object"))
        (notM (isPackageAuthor author))
    = (Ret (negb (author_ok author)), log)
    /\ (author_ok author = true -> log = []).
Proof.
  rewrite guard_object.
  destruct (decides_inv _ _ (isPackageAuthor_decides author)) as (log & Hv & Hlog).
  destruct author as [| |b|n|s|f|props|z|d];
    try (exists []; split; [reflexivity | discriminate]).
  exists log. unfold orM, notM. rewrite Hv. unfold bind, ret.
  rewrite app_nil_r. auto.
Qed.

Lemma typeof_string (v : value) : (typeof v !=? "string") = negb (is_string v).
Proof. reflexivity. Qed.

Theorem isPackage_decides (x : value) :
  decides (isPackage semver_valid x) (package_ok semver_valid x).
Proof.
  unfold isPackage. rewrite guard_object.
  destruct x as [| |b|n|s|f|props|z|d]; try rejected.
  cbn [get package_ok]. rewrite !bind_lift_ret.
  rewrite name_check, bind_ret.
  destruct (name_ok _); [|rejected].
  rewrite version_check, bind_ret.
  destruct (version_ok _ _); [|rejected].
  rewrite typeof_string.
  destruct (is_string _); [|rejected].
  destruct (author_check (lookup props "author")) as (log & -> & Hlog).
  destruct (author_ok _); [|rejected].
  rewrite (Hlog eq_refl). cbn [negb andb].
  change (@pair (outcome bool) (list diagnostic) (Ret false) []) with (ret false).
  rewrite bind_ret.
  apply and_then_decides.
  - apply maintainers_passes.
  - intros _. apply exports_decides.
Qed.

Lemma tag_version_entry_passes (e : string * value) :
  passes (tag_version_entry semver_valid e) (package_ok semver_valid (snd e)).
Proof.
  destruct e as [key v]. unfold tag_version_entry. cbn [snd].
  destruct (decides_inv _ _ (isPackage_decides v)) as (log & Hv & Hlog).
  cbn [typeof neqb String.eqb Ascii.eqb Bool.eqb negb].
  rewrite Hv. destruct (package_ok _ v).
  - rewrite (Hlog eq_refl). split; reflexivity.
  - rejected.
Qed.

Theorem isTagValid_decides (tag versions : value) :
  decides (isTagValid semver_valid tag versions)
          (tag_ok semver_valid tag versions).
Proof.
  unfold isTagValid. rewrite guard_string, guard_object.
  destruct tag as [| |b|n|s|f|ps|z|d]; try rejected.
  - destruct b; rejected.
  - destruct n; rejected.
  - destruct s as [|c s]; [destruct versions; rejected|].
    destruct versions as [| |b|n|t|f|props|z|d]; try rejected.
    cbn [required_string ToBoolean is_string typeof String.eqb Ascii.eqb
         Bool.eqb negb andb Object_entries get_computed get tag_ok].
    rewrite !bind_lift_ret.
    apply and_then_decides.
    + apply for_of_passes. intros e _. apply tag_version_entry_passes.
    + intros _. destruct (ToBoolean _); split; try reflexivity; discriminate.
  - destruct z; rejected.
Qed.

Lemma version_entry_passes (e : string * value) :
  passes (version_entry semver_valid e) (package_ok semver_valid (snd e)).
Proof.
  destruct e as [key v]. unfold version_entry. cbn [snd].
  destruct (decides_inv _ _ (isPackage_decides v)) as (log & Hv & Hlog).
  unfold orM, notM. cbn [typeof neqb String.eqb Ascii.eqb Bool.eqb negb].
  rewrite Hv. destruct (package_ok _ v).
  - rewrite (Hlog eq_refl). split; reflexivity.
  - rejected.
Qed.

Lemma tag_entry_passes (versions : value) (e : string * value) :
  passes (tag_entry semver_valid versions e)
         (is_string (snd e) && tag_ok semver_valid (snd e) versions).
Proof.
  destruct e as [key v]. unfold tag_entry. cbn [snd].
  destruct (decides_inv _ _ (isTagValid_decides v versions)) as (log & Hv & Hlog).
  change (typeof (VStr key) !=? "string") with false. cbn [orb].
  rewrite typeof_string.
  destruct (is_string v); [|rejected].
  unfold orM, notM. cbn [negb andb].
  rewrite Hv. destruct (tag_ok _ v versions).
  - rewrite (Hlog eq_refl). split; reflexivity.
  - rejected.
Qed.

Theorem isRemotePackage_decides (x : value) :
  decides (isRemotePackage semver_valid x) (remote_ok semver_valid x).
Proof.
  unfold isRemotePackage. rewrite guard_object.
  destruct x as [| |b|n|s|f|props|z|d]; try rejected.
  cbn [get remote_ok]. rewrite !bind_lift_ret.
  rewrite !guard_string.
  destruct (required_string (lookup props "id")); [|rejected].
  destruct (required_string (lookup props "name")); [|rejected].
  destruct (author_check (lookup props "author")) as (log & -> & Hlog).
  destruct (author_ok _); [|rejected].
  rewrite (Hlog eq_refl). cbn [negb andb].
  change (@pair (outcome bool) (list diagnostic) (Ret false) []) with (ret false).
  rewrite bind_ret, !guard_object.
  destruct (lookup props "versions") as [| |b|n|s|f|versions|z|d]; try rejected.
  cbn [Object_entries versions_ok]. rewrite bind_lift_ret.
  apply and_then_decides.
  - apply for_of_passes. intros e _. apply version_entry_passes.
  - intros _.
    destruct (lookup props "tags") as [| |b|n|s|f|tags|z|d]; try rejected.
    cbn [Object_entries tags_ok]. rewrite bind_lift_ret.
    rewrite <- (andb_true_r (all_values _ _)).
    apply and_then_decides.
    + apply for_of_passes. intros e _. apply tag_entry_passes.
    + intros _. split; reflexivity.
Qed.

End Decides.

(** ** Verdicts *)

Section Verdicts.

Variable semver_valid : string -> bool.

Lemma isPackageExport_verdict (x : value) :
  verdict (isPackageExport x) = Ret (export_ok x).
Proof. apply isPackageExport_decides. Qed.

Lemma isPackageAuthor_verdict (x : value) :
  verdict (isPackageAuthor x) = Ret (author_ok x).
Proof. apply isPackageAuthor_decides. Qed.

Lemma isPackage_verdict (x : value) :
  verdict (isPackage semver_valid x) = Ret (package_ok semver_valid x).
Proof. apply isPackage_decides. Qed.

Lemma isTagValid_verdict (tag versions : value) :
  verdict (isTagValid semver_valid tag versions)
  = Ret (tag_ok semver_valid tag versions).
Proof. apply isTagValid_decides. Qed.

Lemma isRemotePackage_verdict (x : value) :
  verdict (isRemotePackage semver_valid x) = Ret (remote_ok semver_valid x).
Proof. apply isRemotePackage_decides. Qed.

Lemma verdict_true (m : M bool) (b : bool) :
  verdict m = Ret b -> (verdict m = Ret true <-> b = true).
Proof. intros ->. split; [intros [= ->] | intros ->]; reflexivity. Qed.

Lemma isPackage_true (x : value) :
  verdict (isPackage semver_valid x) = Ret true <-> package_ok semver_valid x = true.
Proof. apply verdict_true, isPackage_verdict. Qed.

Lemma isPackageAuthor_true (x : value) :
  verdict (isPackageAuthor x) = Ret true <-> author_ok x = true.
Proof. apply verdict_true, isPackageAuthor_verdict. Qed.

(** A validator that answers [true] has logged nothing. *)
Lemma decided_true_quiet (m : M bool) (b : bool) :
  decides m b -> verdict m = Ret true -> m = (Ret true, []).
Proof.
  intros Hd Hv. destruct (decides_inv _ _ Hd) as (log & -> & Hlog).
  cbn in Hv. injection Hv as ->. rewrite (Hlog eq_refl). reflexivity.
Qed.

End Verdicts.

(** ** Property reads *)

Lemma own_set (props : list (string * value)) (k k' : string) (v : value) :
  own (set props k v) k' = if k =? k' then Some v else own props k'.
Proof.
  induction props as [|[k0 v0] rest IH]; cbn.
  - reflexivity.
  - destruct (String.eqb_spec k0 k) as [->|Hk0]; cbn.
    + destruct (String.eqb_spec k k'); reflexivity.
    + rewrite IH. destruct (String.eqb_spec k k') as [<-|]; [|reflexivity].
      apply String.eqb_neq in Hk0. rewrite Hk0. reflexivity.
Qed.

Lemma lookup_set (props : list (string * value)) (k k' : string) (v : value) :
  lookup (set props k v) k' = if k =? k' then v else lookup props k'.
Proof.
  unfold lookup. rewrite own_set. destruct (k =? k'); reflexivity.
Qed.

Lemma own_In (props : list (string * value)) (k : string) (v : value) :
  own props k = Some v -> In (k, v) props.
Proof.
  induction props as [|[k0 v0] rest IH]; cbn; [discriminate|].
  destruct (String.eqb_spec k0 k) as [->|_].
  - intros [= ->]. left. reflexivity.
  - intros H. right. apply IH, H.
Qed.

Lemma In_own (props : list (string * value)) (k : string) (v : value) :
  In (k, v) props -> exists v', own props k = Some v'.
Proof.
  induction props as [|[k0 v0] rest IH]; cbn; [intros []|].
  intros [[= -> ->]|H].
  - rewrite String.eqb_refl. eauto.
  - destruct (k0 =? k); eauto.
Qed.

Lemma all_values_forall (p : value -> bool) (props : list (string * value)) :
  all_values p props = true <-> forall k v, In (k, v) props -> p v = true.
Proof.
  unfold all_values. rewrite forallb_forall. split.
  - intros H k v Hin. apply (H (k, v) Hin).
  - intros H [k v] Hin. apply (H k v Hin).
Qed.

(** ** Lower case *)



(** ** Tags and versions *)

Section Tags.

Variable semver_valid : string -> bool.

(** Once every manifest of [versions] validates, [isTagValid] answers with
    the truthiness of the property read [versions[tag]]. *)
Lemma isTagValid_reads_property (tag : string) (props : list (string * value)) :
  tag <> "" ->
  (forall k v, In (k, v) props -> verdict (isPackage semver_valid v) = Ret true) ->
  verdict (isTagValid semver_valid (VStr tag) (VObj props))
  = Ret (ToBoolean (lookup props tag)).
Proof.
  intros Htag Hall. rewrite isTagValid_verdict. cbn [tag_ok].
  apply String.eqb_neq in Htag. rewrite Htag. cbn [negb andb].
  replace (all_values _ props) with true; [reflexivity|].
  symmetry. apply all_values_forall. intros k v Hin.
  apply isPackage_true. exact (Hall k v Hin).
Qed.

(** For a tag that names no property of [Object.prototype], the answer is
    membership among the keys of [versions]. *)
Lemma isTagValid_membership (tag : string) (props : list (string * value)) :
  tag <> "" ->
  (forall k v, In (k, v) props -> verdict (isPackage semver_valid v) = Ret true) ->
  own Object_prototype tag = None ->
  verdict (isTagValid semver_valid (VStr tag) (VObj props)) = Ret true
  <-> exists v, In (tag, v) props.
Proof.
  intros Htag Hall Hproto.
  rewrite (isTagValid_reads_property tag props Htag Hall).
  unfold lookup. rewrite Hproto. split.
  - destruct (own props tag) as [v|] eqn:Hown; [|discriminate].
    intros _. exists v. apply own_In, Hown.
  - intros [v Hin]. destruct (In_own _ _ _ Hin) as [v' Hown].
    rewrite Hown. apply own_In in Hown.
    apply Hall, isPackage_true in Hown.
    destruct v'; try discriminate. reflexivity.
Qed.

(** C1, at the input where the code departs from it: with [versions] the
    empty object, every manifest of [versions] validates and no key of
    [versions] equals the tag [constructor], yet [isTagValid] returns
    [true], because [versions[tag]] reads the inherited property
    [Object.prototype.constructor]. *)
Theorem isTagValid_inherited_key :
  Forall (fun e => verdict (isPackage semver_valid (snd e)) = Ret true)
         Sample.no_property
  /\ own Sample.no_property "constructor" = None
  /\ isTagValid semver_valid (VStr "constructor") (VObj Sample.no_property)
     = (Ret true, []).
Proof.
  split; [constructor|]. split; reflexivity.
Qed.

(** The same read lets a record through whose [latest] names no version. *)
Lemma isRemotePackage_inherited_tag :
  own [("1.0.0", Sample.manifest)] "toString" = None
  /\ isRemotePackage SemVer.isValidSemVer
       (Sample.left_pad (VObj [("latest", VStr "toString")]))
     = (Ret true, []).
Proof. split; vm_compute; reflexivity. Qed.

(** C2: when some entry of [versions] does not satisfy [isPackage],
    [isTagValid] returns [false] for every tag, whatever the other entries
    are. *)
Theorem isTagValid_poisoned (tag : value) (props : list (string * value))
    (key : string) (bad : value) :
  In (key, bad) props ->
  verdict (isPackage semver_valid bad) <> Ret true ->
  verdict (isTagValid semver_valid tag (VObj props)) = Ret false.
Proof.
  intros Hin Hbad. rewrite isTagValid_verdict. f_equal.
  destruct tag as [| |b|n|s|f|ps|z|d]; try reflexivity.
  cbn [tag_ok].
  assert (Hall : all_values (package_ok semver_valid) props = false).
  { apply not_true_is_false. intros Hall. apply Hbad.
    apply isPackage_true.
    exact (proj1 (all_values_forall _ _) Hall key bad Hin). }
  rewrite Hall. rewrite andb_false_r. reflexivity.
Qed.

End Tags.

(** A valid manifest next to an invalid one: the tag of the valid one is
    rejected. *)
Lemma isTagValid_poisoned_witness :
  In ("2.0.0", VNull) [("1.0.0", Sample.manifest); ("2.0.0", VNull)]
  /\ verdict (isPackage SemVer.isValidSemVer Sample.manifest) = Ret true
  /\ verdict (isPackage SemVer.isValidSemVer VNull) <> Ret true
  /\ verdict (isTagValid SemVer.isValidSemVer (VStr "1.0.0")
                (VObj [("1.0.0", Sample.manifest); ("2.0.0", VNull)]))
     = Ret false.
Proof.
  assert (Hin : In ("2.0.0", VNull) [("1.0.0", Sample.manifest); ("2.0.0", VNull)])
    by (right; left; reflexivity).
  assert (Hbad : verdict (isPackage SemVer.isValidSemVer VNull) <> Ret true)
    by (vm_compute; discriminate).
  split; [exact Hin|]. split; [reflexivity|]. split; [exact Hbad|].
  exact (isTagValid_poisoned SemVer.isValidSemVer (VStr "1.0.0") _ "2.0.0" VNull
           Hin Hbad).
Defined.

(** ** Remote packages *)

(** C3, at the input where the code departs from it: a record that passes
    every check and whose [tags] has no key [latest] is accepted, without a
    diagnostic; [isRemotePackage] never looks for the key. *)
Theorem isRemotePackage_without_latest (semver_valid : string -> bool) :
  own Sample.no_property "latest" = None
  /\ isRemotePackage semver_valid Sample.unpublished = (Ret true, []).
Proof. split; reflexivity. Qed.

(** The same with a version and a tag of another name. *)
Lemma isRemotePackage_other_tag :
  isRemotePackage SemVer.isValidSemVer
    (Sample.left_pad (VObj [("stable", VStr "1.0.0")]))
  = (Ret true, []).
Proof. vm_compute. reflexivity. Qed.

(** C5: with [versions = {"1.0.0": p}] and [p] a valid manifest, the tag
    [9.9.9] is not valid, a record whose [latest] is [9.9.9] is rejected,
    and the same record with [latest] at [1.0.0] is accepted. *)
Theorem tag_referential_integrity (semver_valid : string -> bool)
    (p author : value) (id name : string) :
  verdict (isPackage semver_valid p) = Ret true ->
  verdict (isPackageAuthor author) = Ret true ->
  id <> "" -> name <> "" ->
  let versions := VObj [("1.0.0", p)] in
  let record tags := remote_package (VStr id) (VStr name) author versions tags in
  verdict (isTagValid semver_valid (VStr "9.9.9") versions) = Ret false
  /\ verdict (isRemotePackage semver_valid (record (VObj [("latest", VStr "9.9.9")])))
     = Ret false
  /\ verdict (isRemotePackage semver_valid (record (VObj [("latest", VStr "1.0.0")])))
     = Ret true.
Proof.
  intros Hp Ha Hid Hname versions record.
  apply isPackage_true in Hp. apply isPackageAuthor_true in Ha.
  assert (Hid' : required_string (VStr id) = true).
  { apply String.eqb_neq in Hid. unfold required_string. cbn. rewrite Hid.
    reflexivity. }
  assert (Hname' : required_string (VStr name) = true).
  { apply String.eqb_neq in Hname. unfold required_string. cbn. rewrite Hname.
    reflexivity. }
  assert (Htrue : ToBoolean p = true).
  { destruct p; try discriminate. reflexivity. }
  rewrite isTagValid_verdict, !isRemotePackage_verdict.
  unfold record, versions, remote_package.
  cbn [remote_ok tag_ok tags_ok versions_ok all_values forallb snd lookup own
       String.eqb Ascii.eqb Bool.eqb is_string typeof negb andb].
  rewrite Hp, Ha, Hid', Hname', Htrue. repeat split.
Qed.

Lemma tag_referential_integrity_witness :
  verdict (isPackage SemVer.isValidSemVer Sample.manifest) = Ret true
  /\ verdict (isTagValid SemVer.isValidSemVer (VStr "9.9.9")
                (VObj [("1.0.0", Sample.manifest)])) = Ret false
  /\ verdict (isRemotePackage SemVer.isValidSemVer
                (Sample.left_pad (VObj [("latest", VStr "9.9.9")]))) = Ret false
  /\ verdict (isRemotePackage SemVer.isValidSemVer
                (Sample.left_pad (VObj [("latest", VStr "1.0.0")]))) = Ret true.
Proof.
  split; [reflexivity|].
  apply (tag_referential_integrity SemVer.isValidSemVer Sample.manifest
           Sample.author "abc123" "left-pad").
  - reflexivity.
  - reflexivity.
  - discriminate.
  - discriminate.
Defined.

(** C6: the record with id [abc123], name [left-pad], a valid author, the
    one version [1.0.0] whose manifest is valid and exports
    [{".": {main: "index.js"}}], and [latest] at [1.0.0] is accepted, and
    the call logs nothing. *)
Theorem end_to_end (semver_valid : string -> bool) (author : value)
    (manifest : list (string * value)) :
  verdict (isPackageAuthor author) = Ret true ->
  own manifest "exports" = Some Sample.dot_export ->
  verdict (isPackage semver_valid (VObj manifest)) = Ret true ->
  isRemotePackage semver_valid
    (remote_package (VStr "abc123") (VStr "left-pad") author
       (VObj [("1.0.0", VObj manifest)]) (VObj [("latest", VStr "1.0.0")]))
  = (Ret true, []).
Proof.
  intros Ha _ Hp.
  apply (decided_true_quiet _ _ (isRemotePackage_decides semver_valid _)).
  apply isPackage_true in Hp. apply isPackageAuthor_true in Ha.
  rewrite isRemotePackage_verdict. unfold remote_package.
  cbn [remote_ok tag_ok tags_ok versions_ok all_values forallb snd lookup own
       String.eqb Ascii.eqb Bool.eqb required_string ToBoolean is_string typeof
       negb andb].
  rewrite Hp, Ha. reflexivity.
Qed.

Lemma end_to_end_witness :
  isRemotePackage SemVer.isValidSemVer
    (Sample.left_pad (VObj [("latest", VStr "1.0.0")]))
  = (Ret true, []).
Proof.
  apply (end_to_end SemVer.isValidSemVer Sample.author
           (Sample.manifest_of "left-pad" "1.0.0")); reflexivity.
Defined.

(** ** Manifests *)

Section Manifests.

Variable semver_valid : string -> bool.

(** The fields other than [field] of a manifest valid apart from [field]. *)
Lemma valid_apart_from_version (props : list (string * value)) :
  valid_apart_from semver_valid "version" props ->
  name_ok (lookup props "name") = true
  /\ is_string (lookup props "description") = true
  /\ author_ok (lookup props "author") = true
  /\ maintainers_ok (lookup props "maintainers") = true
  /\ exports_ok (lookup props "exports") = true.
Proof.
  intros [v Hv]. apply isPackage_true in Hv. cbn [package_ok] in Hv.
  rewrite !lookup_set in Hv. cbn [String.eqb Ascii.eqb Bool.eqb] in Hv.
  repeat (apply andb_prop in Hv; destruct Hv as [Hv ?]). auto.
Qed.

Lemma valid_apart_from_name (props : list (string * value)) :
  valid_apart_from semver_valid "name" props ->
  version_ok semver_valid (lookup props "version") = true
  /\ is_string (lookup props "description") = true
  /\ author_ok (lookup props "author") = true
  /\ maintainers_ok (lookup props "maintainers") = true
  /\ exports_ok (lookup props "exports") = true.
Proof.
  intros [v Hv]. apply isPackage_true in Hv. cbn [package_ok] in Hv.
  rewrite !lookup_set in Hv. cbn [String.eqb Ascii.eqb Bool.eqb] in Hv.
  repeat (apply andb_prop in Hv; destruct Hv as [Hv ?]). auto.
Qed.

(** The verdict on a manifest whose other fields are valid is the verdict
    on its version, and likewise for its name. *)
Lemma isPackage_by_version (props : list (string * value)) :
  valid_apart_from semver_valid "version" props ->
  verdict (isPackage semver_valid (VObj props))
  = Ret (version_ok semver_valid (lookup props "version")).
Proof.
  intros H. destruct (valid_apart_from_version props H) as (Hn & Hd & Ha & Hm & He).
  rewrite isPackage_verdict. cbn [package_ok].
  rewrite Hn, Hd, Ha, Hm, He, !andb_true_r. reflexivity.
Qed.

Lemma isPackage_by_name (props : list (string * value)) :
  valid_apart_from semver_valid "name" props ->
  verdict (isPackage semver_valid (VObj props))
  = Ret (name_ok (lookup props "name")).
Proof.
  intros H. destruct (valid_apart_from_name props H) as (Hv & Hd & Ha & Hm & He).
  rewrite isPackage_verdict. cbn [package_ok].
  rewrite Hv, Hd, Ha, Hm, He, !andb_true_r. reflexivity.
Qed.


(** C10: a value whose [name] is the empty string is not a package. *)
Theorem empty_name_rejected (x : value) :
  get x "name" = Ret (VStr "") ->
  verdict (isPackage semver_valid x) = Ret false.
Proof.
  intros Hget. rewrite isPackage_verdict.
  destruct x as [| |b|n|s|f|props|z|d]; try discriminate.
  cbn [get] in Hget. injection Hget as Hname.
  cbn [package_ok]. rewrite Hname. reflexivity.
Qed.

End Manifests.



Lemma empty_name_rejected_witness :
  verdict (isPackage SemVer.isValidSemVer (VObj (Sample.manifest_of "" "1.0.0")))
  = Ret false.
Proof.
  apply (empty_name_rejected SemVer.isValidSemVer). reflexivity.
Defined.

(** Under the grammar the spec describes, which allows no leading [v], a
    manifest valid in every other field is accepted with the versions
    [1.0.0] and [1.0.0-alpha.1] and refused with [1.0], [v1.0.0] and
    [1.0.0-]. *)
Lemma strict_grammar_boundary_cases (props : list (string * value)) :
  valid_apart_from SemVer.isValidSemVer "version" props ->
  let with_version v :=
    verdict (isPackage SemVer.isValidSemVer (VObj (set props "version" (VStr v)))) in
  with_version "1.0.0" = Ret true
  /\ with_version "1.0.0-alpha.1" = Ret true
  /\ with_version "1.0" = Ret false
  /\ with_version "v1.0.0" = Ret false
  /\ with_version "1.0.0-" = Ret false.
Proof.
  intros [v0 Hv0] with_version.
  assert (Hset : forall v, with_version v = Ret (SemVer.isValidSemVer v && negb (v =? ""))).
  { intros v. unfold with_version. rewrite isPackage_by_version.
    - rewrite lookup_set. cbn. apply f_equal, andb_comm.
    - exists v0. rewrite <- Hv0. rewrite !isPackage_verdict. cbn [package_ok].
      rewrite !lookup_set. cbn [String.eqb Ascii.eqb Bool.eqb].
      reflexivity. }
  rewrite !Hset. repeat split.
Qed.

(** The verdict on a version follows the checker: for a manifest valid in
    every other field, [isPackage] accepts a non-empty version string
    exactly when [semver.valid] accepts it. *)
Lemma isPackage_with_version (semver_valid : string -> bool)
    (props : list (string * value)) (v : string) :
  valid_apart_from semver_valid "version" props ->
  verdict (isPackage semver_valid (VObj (set props "version" (VStr v))))
  = Ret (negb (v =? "") && semver_valid v).
Proof.
  intros [v0 Hv0]. rewrite isPackage_by_version.
  - rewrite lookup_set. reflexivity.
  - exists v0. rewrite <- Hv0. rewrite !isPackage_verdict. cbn [package_ok].
    rewrite !lookup_set. cbn [String.eqb Ascii.eqb Bool.eqb]. reflexivity.
Qed.

(** C4, amended: for a manifest valid in every other field, [isPackage]
    returns [true] when the version is [1.0.0], [1.0.0-alpha.1] or
    [v1.0.0], and [false] when it is [1.0] or [1.0.0-]. *)
Theorem semver_valid_boundary_cases (props : list (string * value)) :
  valid_apart_from SemVer.valid "version" props ->
  let with_version v :=
    verdict (isPackage SemVer.valid (VObj (set props "version" (VStr v)))) in
  with_version "1.0.0" = Ret true
  /\ with_version "1.0.0-alpha.1" = Ret true
  /\ with_version "v1.0.0" = Ret true
  /\ with_version "1.0" = Ret false
  /\ with_version "1.0.0-" = Ret false.
Proof.
  intros Hvalid with_version. unfold with_version.
  rewrite !(isPackage_with_version SemVer.valid props _ Hvalid).
  repeat split; vm_compute; reflexivity.
Qed.

Lemma semver_valid_boundary_cases_witness :
  verdict (isPackage SemVer.valid
             (VObj (set (Sample.manifest_of "left-pad" "0.0.0") "version"
                        (VStr "1.0.0-alpha.1")))) = Ret true
  /\ verdict (isPackage SemVer.valid
                (VObj (set (Sample.manifest_of "left-pad" "0.0.0") "version"
                           (VStr "1.0.0-")))) = Ret false.
Proof.
  assert (H : valid_apart_from SemVer.valid "version"
                (Sample.manifest_of "left-pad" "0.0.0")).
  { exists (VStr "2.1.0"). vm_compute. reflexivity. }
  destruct (semver_valid_boundary_cases _ H) as (_ & Halpha & _ & _ & Hdash).
  split; [exact Halpha | exact Hdash].
Defined.

(** C4 as stated fails at [v1.0.0]: [semver.valid] allows one leading [v],
    so a manifest valid in every other field is accepted with that
    version. *)
Lemma v_prefixed_version_accepted :
  ~ (forall props,
        valid_apart_from SemVer.valid "version" props ->
        verdict (isPackage SemVer.valid
                   (VObj (set props "version" (VStr "v1.0.0")))) = Ret false).
Proof.
  intros H.
  specialize (H (Sample.manifest_of "left-pad" "1.0.0")).
  discriminate H. exists (VStr "1.0.0"). vm_compute. reflexivity.
Qed.

(** ** Authors *)

Lemma lookup_absent_or_null (props : list (string * value)) (k : string) :
  absent_or_null props k -> own Object_prototype k = None ->
  eq_null (lookup props k) = true.
Proof.
  unfold lookup. intros [-> | ->] Hproto; [rewrite Hproto|]; reflexivity.
Qed.

(** C8: an author object with a non-empty string [name] is valid when
    [email] and [url] are each absent or [null], and invalid when one of
    them is a number. *)
Theorem optional_field_tolerance (props : list (string * value)) (name : string) :
  own props "name" = Some (VStr name) -> name <> "" ->
  (absent_or_null props "email" -> absent_or_null props "url" ->
   verdict (isPackageAuthor (VObj props)) = Ret true)
  /\ (forall n, own props "email" = Some (VNum n) \/ own props "url" = Some (VNum n) ->
                verdict (isPackageAuthor (VObj props)) = Ret false).
Proof.
  intros Hname Hne. rewrite isPackageAuthor_verdict. cbn [author_ok].
  assert (Hreq : required_string (lookup props "name") = true).
  { unfold lookup. rewrite Hname. apply String.eqb_neq in Hne.
    unfold required_string. cbn. rewrite Hne. reflexivity. }
  rewrite Hreq. cbn [andb]. split.
  - intros Hemail Hurl. unfold optional_string.
    rewrite (lookup_absent_or_null props "email" Hemail eq_refl).
    rewrite (lookup_absent_or_null props "url" Hurl eq_refl).
    reflexivity.
  - intros n [H | H]; unfold lookup at 1 2; rewrite H; cbn.
    + reflexivity.
    + rewrite andb_false_r. reflexivity.
Qed.

Lemma optional_field_tolerance_witness :
  verdict (isPackageAuthor (VObj [("name", VStr "Jane Doe"); ("url", VNull)]))
  = Ret true.
Proof.
  apply (optional_field_tolerance [("name", VStr "Jane Doe"); ("url", VNull)]
           "Jane Doe").
  - reflexivity.
  - discriminate.
  - left. reflexivity.
  - right. reflexivity.
Defined.

(** ** Totality *)

(** On every value made of primitives, functions and ordinary objects with
    data properties each validator ends normally with a boolean; no
    property read, [Object.entries] or method call of a validator throws
    there. *)
Theorem validators_total (semver_valid : string -> bool) (x tag versions : value) :
  returns_boolean (isPackageExport x)
  /\ returns_boolean (isPackageAuthor x)
  /\ returns_boolean (isPackage semver_valid x)
  /\ returns_boolean (isTagValid semver_valid tag versions)
  /\ returns_boolean (isRemotePackage semver_valid x).
Proof.
  unfold returns_boolean.
  repeat split; eexists.
  - apply isPackageExport_verdict.
  - apply isPackageAuthor_verdict.
  - apply isPackage_verdict.
  - apply isTagValid_verdict.
  - apply isRemotePackage_verdict.
Qed.

(** ** Totality on arrays and on objects with accessors *)

Section HostTotality.

Variable semver_valid : string -> bool.
Variable Array_prototype : list (string * Host.value).
Hypothesis quiet_prototype : Forall (fun e => Host.quiet (snd e)) Array_prototype.

Lemma quiet_VArr (items : list Host.value) :
  Host.quiet (Host.VArr items) <-> Forall Host.quiet items.
Proof.
  induction items as [|w rest IH]; cbn.
  - split; [constructor | trivial].
  - split.
    + intros [Hw Hrest]. constructor; [exact Hw | apply IH, Hrest].
    + intros H. inversion H; subst. split; [assumption | apply IH; assumption].
Qed.

Lemma quiet_VObj_read (props : list (string * outcome Host.value)) (k : string)
    (read : outcome Host.value) :
  Host.quiet (Host.VObj props) -> Host.assoc props k = Some read ->
  exists v, read = Ret v /\ Host.quiet v.
Proof.
  induction props as [|[k' r] rest IH]; cbn; [discriminate|].
  destruct r as [w|e|]; try contradiction.
  intros [Hw Hrest]. destruct (k' =? k).
  - intros [= <-]. eauto.
  - apply IH, Hrest.
Qed.

Lemma quiet_read_all (props : list (string * outcome Host.value)) :
  Host.quiet (Host.VObj props) ->
  exists entries, Host.read_all props = Ret entries
                  /\ Forall (fun e => Host.quiet (snd e)) entries.
Proof.
  induction props as [|[k r] rest IH]; cbn.
  - intros _. exists []. split; [reflexivity | constructor].
  - destruct r as [w|e|]; try contradiction.
    intros [Hw Hrest]. destruct (IH Hrest) as (entries & -> & Hall).
    exists ((k, w) :: entries). split; [reflexivity|].
    constructor; [exact Hw | exact Hall].
Qed.

Lemma assoc_In {A} (l : list (string * A)) (k : string) (a : A) :
  Host.assoc l k = Some a -> In (k, a) l.
Proof.
  induction l as [|[k' a'] rest IH]; cbn; [discriminate|].
  destruct (String.eqb_spec k' k) as [->|_].
  - intros [= ->]. left. reflexivity.
  - intros H. right. apply IH, H.
Qed.

Lemma quiet_array_entries (items : list Host.value) :
  Host.quiet (Host.VArr items) ->
  Forall (fun e => Host.quiet (snd e)) (Host.array_entries items).
Proof.
  intros H. apply quiet_VArr in H. apply Forall_forall.
  intros [k v] Hin. unfold Host.array_entries in Hin.
  apply in_combine_r in Hin.
  exact (proj1 (Forall_forall _ _) H v Hin).
Qed.

Lemma quiet_inherited (k : string) : Host.quiet (Host.inherited Host.Object_prototype k).
Proof.
  unfold Host.inherited. destruct (Host.assoc Host.Object_prototype k) as [v|] eqn:H; [|exact I].
  apply assoc_In in H. cbn in H.
  repeat (destruct H as [[= <- <-]|H]; [exact I|]). destruct H.
Qed.

Lemma host_guard_object (x : Host.value) :
  negb (Host.ToBoolean x) || (Host.typeof x !=? "object") = negb (Host.is_object x).
Proof.
  destruct x as [| |b|n|s|f|props|items|z|d]; try reflexivity.
  - destruct b; reflexivity.
  - destruct n; reflexivity.
  - destruct s; reflexivity.
  - destruct z; reflexivity.
Qed.

(** A read on a Host.quiet object or array returns, and what it returns is
    Host.quiet. *)
Lemma quiet_get (o : Host.value) (k : string) :
  Host.quiet o -> Host.is_object o = true ->
  exists v, Host.get Array_prototype o k = Ret v /\ Host.quiet v.
Proof.
  intros Hq Hobj. destruct o as [| |b|n|s|f|props|items|z|d]; try discriminate.
  - cbn [Host.get]. destruct (Host.assoc props k) as [read|] eqn:Hread.
    + exact (quiet_VObj_read props k read Hq Hread).
    + eexists. split; [reflexivity | apply quiet_inherited].
  - cbn [Host.get].
    destruct (Host.assoc (Host.array_entries items) k) as [v|] eqn:Hown.
    + exists v. split; [reflexivity|].
      apply assoc_In in Hown.
      exact (proj1 (Forall_forall _ _) (quiet_array_entries items Hq) (k, v) Hown).
    + destruct (k =? "length"); [eexists; split; [reflexivity | exact I]|].
      destruct (Host.assoc Array_prototype k) as [v|] eqn:Hproto.
      * exists v. split; [reflexivity|]. apply assoc_In in Hproto.
        exact (proj1 (Forall_forall _ _) quiet_prototype (k, v) Hproto).
      * eexists. split; [reflexivity | apply quiet_inherited].
Qed.

Lemma quiet_entries (o : Host.value) :
  Host.quiet o -> Host.is_object o = true ->
  exists entries, Host.Object_entries o = Ret entries
                  /\ Forall (fun e => Host.quiet (snd e)) entries.
Proof.
  intros Hq Hobj. destruct o as [| |b|n|s|f|props|items|z|d]; try discriminate.
  - apply quiet_read_all, Hq.
  - eexists. split; [reflexivity | apply quiet_array_entries, Hq].
Qed.

Lemma host_bind_ret {A B} (a : A) (f : A -> Host.M B) :
  Host.bind (Host.lift (Ret a)) f = f a.
Proof. unfold Host.bind, Host.lift. destruct (f a); reflexivity. Qed.

Lemma yields_bind {A B} (P : A -> Prop) (Q : B -> Prop) (m : Host.M A)
    (f : A -> Host.M B) :
  Host.yields P m -> (forall a, P a -> Host.yields Q (f a)) -> Host.yields Q (Host.bind m f).
Proof.
  intros (a & log & -> & Ha) Hf.
  destruct (Hf a Ha) as (b & log' & Hb & Hq).
  unfold Host.bind. rewrite Hb.
  exists b, (log ++ log')%list. split; [reflexivity | exact Hq].
Qed.

Lemma yields_weaken {A} (P Q : A -> Prop) (m : Host.M A) :
  Host.yields P m -> (forall a, P a -> Q a) -> Host.yields Q m.
Proof. intros (a & log & -> & Ha) H. exists a, log. auto. Qed.

Lemma ends_bind {A B} (m : Host.M A) (f : A -> Host.M B) :
  Host.ends m -> (forall a, Host.ends (f a)) -> Host.ends (Host.bind m f).
Proof.
  intros Hm Hf. apply (yields_bind (fun _ => True)); [exact Hm|].
  intros a _. apply Hf.
Qed.

Lemma ends_for_of {A} (body : A -> Host.M (option bool)) (l : list A) :
  (forall a, In a l -> Host.ends (body a)) -> Host.ends (Host.for_of l body).
Proof.
  induction l as [|a l IH]; intros H.
  - exists None, []. split; [reflexivity | exact I].
  - cbn [Host.for_of]. apply ends_bind; [apply H; left; reflexivity|].
    intros [b|].
    + exists (Some b), []. split; [reflexivity | exact I].
    + apply IH. intros b Hb. apply H. right. exact Hb.
Qed.

Lemma ends_and_then (stmt : Host.M (option bool)) (rest : Host.M bool) :
  Host.ends stmt -> Host.ends rest -> Host.ends (Host.and_then stmt rest).
Proof.
  intros Hs Hr. unfold Host.and_then. apply ends_bind; [exact Hs|].
  intros [b|]; [|exact Hr]. exists b, []. split; [reflexivity | exact I].
Qed.

Ltac ended := eexists _, _; split; [reflexivity | exact I].

Ltac read_field x k :=
  let v := fresh "v" in
  let Hget := fresh "Hget" in
  let Hq := fresh "Hq" in
  destruct (quiet_get x k ltac:(assumption) ltac:(assumption)) as (v & Hget & Hq);
  rewrite Hget, host_bind_ret.

Lemma isPackageExport_ends (x : Host.value) :
  Host.quiet x -> Host.ends (Host.isPackageExport Array_prototype x).
Proof.
  intros Hx. unfold Host.isPackageExport. rewrite host_guard_object.
  destruct (Host.is_object x) eqn:Hobj; cbn [negb]; [|ended].
  read_field x "main". read_field x "types".
  destruct (negb (Host.ToBoolean v) || _); [ended|].
  destruct (negb (Host.eq_null v0) && _); ended.
Qed.

Lemma isPackageAuthor_ends (x : Host.value) :
  Host.quiet x -> Host.ends (Host.isPackageAuthor Array_prototype x).
Proof.
  intros Hx. unfold Host.isPackageAuthor. rewrite host_guard_object.
  destruct (Host.is_object x) eqn:Hobj; cbn [negb]; [|ended].
  read_field x "name". read_field x "email". read_field x "url".
  destruct (negb (Host.ToBoolean v) || _); [ended|].
  destruct (negb (Host.eq_null v0) && _); [ended|].
  destruct (negb (Host.eq_null v1) && _); ended.
Qed.

Lemma ends_notM (m : Host.M bool) : Host.ends m -> Host.ends (Host.notM m).
Proof.
  intros H. unfold Host.notM. apply ends_bind; [exact H|]. intros b. ended.
Qed.

Lemma author_check_ends (author : Host.value) :
  Host.quiet author ->
  Host.ends (Host.orM (negb (Host.ToBoolean author) || (Host.typeof author !=? "object"))
                 (Host.notM (Host.isPackageAuthor Array_prototype author))).
Proof.
  intros Hq. destruct (negb _ || _); [ended|].
  apply ends_notM, isPackageAuthor_ends, Hq.
Qed.

Lemma name_check_ends (name : Host.value) :
  Host.ends (Host.orM (negb (Host.ToBoolean name) || (Host.typeof name !=? "string"))
          (Host.bind (Host.lift (Host.call_toLowerCase name))
             (fun lowered => Host.ret (negb (Host.strict_eq_string lowered name))))).
Proof.
  destruct name as [| |b|n|s|f|props|items|z|d]; try ended.
  - destruct b; ended.
  - destruct n; ended.
  - destruct s; ended.
  - destruct z; ended.
Qed.

Lemma version_check_ends (version : Host.value) :
  Host.ends (Host.orM (negb (Host.ToBoolean version) || (Host.typeof version !=? "string"))
          (Host.notM (Host.call_semver_valid semver_valid version))).
Proof.
  destruct version as [| |b|n|s|f|props|items|z|d]; try ended.
  - destruct b; ended.
  - destruct n; ended.
  - destruct s; ended.
  - destruct z; ended.
Qed.

Lemma maintainer_entry_ends (e : string * Host.value) :
  Host.quiet (snd e) -> Host.ends (Host.maintainer_entry Array_prototype e).
Proof.
  destruct e as [key v]. cbn [snd]. intros Hq. unfold Host.maintainer_entry.
  apply ends_bind.
  - apply ends_notM, isPackageAuthor_ends, Hq.
  - intros []; ended.
Qed.

Lemma export_entry_ends (e : string * Host.value) :
  Host.quiet (snd e) -> Host.ends (Host.export_entry Array_prototype e).
Proof.
  destruct e as [key v]. cbn [snd]. intros Hq. unfold Host.export_entry.
  cbn [Host.typeof neqb String.eqb Ascii.eqb Bool.eqb negb].
  apply ends_bind; [apply isPackageExport_ends, Hq|]. intros []; ended.
Qed.

(** A loop over the entries of a Host.quiet value Host.ends when its body Host.ends on
    Host.quiet values. *)
Lemma entries_loop_ends (o : Host.value) (body : string * Host.value -> Host.M (option bool)) :
  Host.quiet o -> Host.is_object o = true ->
  (forall e, Host.quiet (snd e) -> Host.ends (body e)) ->
  Host.ends (Host.bind (Host.lift (Host.Object_entries o))
          (fun entries => Host.for_of entries body)).
Proof.
  intros Hq Hobj Hbody.
  destruct (quiet_entries o Hq Hobj) as (entries & -> & Hall).
  rewrite host_bind_ret. apply ends_for_of. intros e Hin.
  apply Hbody. exact (proj1 (Forall_forall _ _) Hall e Hin).
Qed.

Lemma isPackage_ends (x : Host.value) :
  Host.quiet x -> Host.ends (Host.isPackage semver_valid Array_prototype x).
Proof.
  intros Hx. unfold Host.isPackage. rewrite host_guard_object.
  destruct (Host.is_object x) eqn:Hobj; cbn [negb]; [|ended].
  read_field x "name". read_field x "version". read_field x "description".
  read_field x "author". read_field x "maintainers". read_field x "exports".
  apply ends_bind; [apply name_check_ends|]. intros []; [ended|].
  apply ends_bind; [apply version_check_ends|]. intros []; [ended|].
  destruct (Host.typeof v1 !=? "string"); [ended|].
  apply ends_bind; [apply author_check_ends; assumption|]. intros []; [ended|].
  apply ends_and_then.
  - destruct (negb (Host.eq_null v3)) eqn:Hnull; [|ended].
    destruct (Host.typeof v3 !=? "object") eqn:Htype; [ended|].
    apply entries_loop_ends; [assumption | | apply maintainer_entry_ends].
    destruct v3; try discriminate; reflexivity.
  - rewrite host_guard_object.
    destruct (Host.is_object v4) eqn:Hobj4; cbn [negb]; [|ended].
    apply ends_and_then; [|ended].
    apply entries_loop_ends; [assumption | assumption | apply export_entry_ends].
Qed.

Lemma tag_version_entry_ends (e : string * Host.value) :
  Host.quiet (snd e) -> Host.ends (Host.tag_version_entry semver_valid Array_prototype e).
Proof.
  destruct e as [key v]. cbn [snd]. intros Hq. unfold Host.tag_version_entry.
  cbn [Host.typeof neqb String.eqb Ascii.eqb Bool.eqb negb].
  apply ends_bind; [apply isPackage_ends, Hq|]. intros []; ended.
Qed.

Lemma isTagValid_ends (tag versions : Host.value) :
  Host.quiet versions ->
  Host.ends (Host.isTagValid semver_valid Array_prototype tag versions).
Proof.
  intros Hq. unfold Host.isTagValid.
  destruct (negb (Host.ToBoolean tag) || (Host.typeof tag !=? "string")) eqn:Htag;
    [ended|].
  rewrite host_guard_object.
  destruct (Host.is_object versions) eqn:Hobj; cbn [negb]; [|ended].
  apply ends_and_then.
  - apply entries_loop_ends; [assumption | assumption|].
    apply tag_version_entry_ends.
  - destruct tag as [| |b|n|s|f|props|items|z|d]; try discriminate Htag.
    + destruct b; discriminate Htag.
    + destruct n; discriminate Htag.
    + cbn [Host.get_computed].
      destruct (quiet_get versions s Hq Hobj) as (v & -> & _).
      rewrite host_bind_ret. destruct (Host.ToBoolean v); ended.
    + destruct z; discriminate Htag.
Qed.

Lemma version_entry_ends (e : string * Host.value) :
  Host.quiet (snd e) -> Host.ends (Host.version_entry semver_valid Array_prototype e).
Proof.
  destruct e as [key v]. cbn [snd]. intros Hq. unfold Host.version_entry.
  apply ends_bind.
  - apply ends_notM, isPackage_ends, Hq.
  - intros []; ended.
Qed.

Lemma tag_entry_ends (versions : Host.value) (e : string * Host.value) :
  Host.quiet versions ->
  Host.ends (Host.tag_entry semver_valid Array_prototype versions e).
Proof.
  destruct e as [key v]. intros Hq. unfold Host.tag_entry.
  apply ends_bind.
  - destruct (_ || _); [ended|]. apply ends_notM, isTagValid_ends, Hq.
  - intros []; ended.
Qed.

Lemma isRemotePackage_ends (x : Host.value) :
  Host.quiet x -> Host.ends (Host.isRemotePackage semver_valid Array_prototype x).
Proof.
  intros Hx. unfold Host.isRemotePackage. rewrite host_guard_object.
  destruct (Host.is_object x) eqn:Hobj; cbn [negb]; [|ended].
  read_field x "id". read_field x "name". read_field x "author".
  read_field x "tags". read_field x "versions".
  destruct (negb (Host.ToBoolean v) || _); [ended|].
  destruct (negb (Host.ToBoolean v0) || _); [ended|].
  apply ends_bind; [apply author_check_ends; assumption|]. intros []; [ended|].
  rewrite host_guard_object.
  destruct (Host.is_object v3) eqn:Hobj3; cbn [negb]; [|ended].
  apply ends_and_then.
  - apply entries_loop_ends; [assumption | assumption | apply version_entry_ends].
  - rewrite host_guard_object.
    destruct (Host.is_object v2) eqn:Hobj2; cbn [negb]; [|ended].
    apply ends_and_then; [|ended].
    apply entries_loop_ends; [assumption | assumption|].
    intros e _. apply tag_entry_ends. assumption.
Qed.

Lemma ends_returns_boolean (m : Host.M bool) : Host.ends m -> Host.returns_boolean m.
Proof. intros (b & log & -> & _). exists b. reflexivity. Qed.

(** C9, amended: on every input in which no property read throws (values
    made of primitives, functions, arrays and objects with data properties
    or getters that return) each validator Host.ends normally with a boolean; no
    property read, [Object.entries] or method call of a validator throws
    there. *)
Theorem validators_total_without_throwing_reads (x tag versions : Host.value) :
  Host.quiet x -> Host.quiet versions ->
  Host.returns_boolean (Host.isPackageExport Array_prototype x)
  /\ Host.returns_boolean (Host.isPackageAuthor Array_prototype x)
  /\ Host.returns_boolean (Host.isPackage semver_valid Array_prototype x)
  /\ Host.returns_boolean
       (Host.isTagValid semver_valid Array_prototype tag versions)
  /\ Host.returns_boolean (Host.isRemotePackage semver_valid Array_prototype x).
Proof.
  intros Hx Hversions. repeat split; apply ends_returns_boolean.
  - apply isPackageExport_ends, Hx.
  - apply isPackageAuthor_ends, Hx.
  - apply isPackage_ends, Hx.
  - apply isTagValid_ends, Hversions.
  - apply isRemotePackage_ends, Hx.
Qed.

End HostTotality.

Lemma validators_total_without_throwing_reads_witness :
  Host.returns_boolean
    (Host.isRemotePackage SemVer.valid Host.Array_prototype_2023
       Host.record_with_array)
  /\ Host.returns_boolean
       (Host.isTagValid SemVer.valid Host.Array_prototype_2023
          (Host.VStr "length") Host.versions_array).
Proof.
  assert (Hproto : Forall (fun e => Host.quiet (snd e)) Host.Array_prototype_2023).
  { cbn. repeat constructor. }
  assert (Hrecord : Host.quiet Host.record_with_array).
  { cbn. repeat split. }
  assert (Hversions : Host.quiet Host.versions_array).
  { cbn. repeat split. }
  destruct (validators_total_without_throwing_reads SemVer.valid
              Host.Array_prototype_2023 Hproto Host.record_with_array
              (Host.VStr "length") Host.versions_array Hrecord Hversions)
    as (_ & _ & _ & Htag & Hremote).
  split; [exact Hremote | exact Htag].
Defined.

(** C9 as stated fails on an object with a throwing getter: the
    destructuring of [isPackageExport] runs the getter of [main], nothing
    catches the exception, and the call ends with it, not with a boolean. *)
Lemma throwing_getter_escapes :
  Host.isPackageExport Host.Array_prototype_2023 Host.throwing_main
  = (Throw TypeError, [])
  /\ ~ Host.returns_boolean
        (Host.isPackageExport Host.Array_prototype_2023 Host.throwing_main).
Proof.
  split; [reflexivity|]. intros [b Hb]. discriminate Hb.
Qed.

(** The same in [isPackageAuthor], for a getter of [email] behind a valid
    name, and in [isRemotePackage] through [Object.entries] of a record
    whose [versions] holds a throwing getter. *)
Lemma throwing_getter_escapes_elsewhere :
  Host.isPackageAuthor Host.Array_prototype_2023 Host.throwing_email
  = (Throw TypeError, [])
  /\ Host.verdict
       (Host.isRemotePackage SemVer.valid Host.Array_prototype_2023
          (Host.VObj [("id", Ret (Host.VStr "abc123"));
                      ("name", Ret (Host.VStr "left-pad"));
                      ("author", Ret Host.author);
                      ("versions", Ret (Host.VObj [("1.0.0", Throw TypeError)]));
                      ("tags", Ret (Host.VObj []))]))
     = Throw TypeError.
Proof. split; reflexivity. Qed.

(** On arrays the validators return as on objects, with the reads of an
    array: a record whose [versions] is an array of one valid manifest and
    whose [latest] is [length] is accepted, and the tag [map] is valid
    against the empty array. *)
Lemma arrays_as_versions :
  Host.isRemotePackage SemVer.valid Host.Array_prototype_2023
    Host.record_with_array = (Ret true, [])
  /\ Host.isTagValid SemVer.valid Host.Array_prototype_2023
       (Host.VStr "map") (Host.VArr []) = (Ret true, []).
Proof. split; vm_compute; reflexivity. Qed.

(** * Further properties of the validators *)

(** ** What each validator accepts *)

Lemma required_string_iff (v : value) :
  required_string v = true <-> nonempty_string v.
Proof.
  unfold required_string, is_string, nonempty_string. split.
  - destruct v as [| |b|n|s|f|ps|z|d]; cbn; rewrite ?andb_false_r;
      try discriminate.
    intros H. exists s. split; [reflexivity|]. intros ->. discriminate.
  - intros (s & -> & Hs). apply String.eqb_neq in Hs. cbn. rewrite Hs.
    reflexivity.
Qed.

Lemma optional_string_iff (v : value) :
  optional_string v = true <-> string_or_nullish v.
Proof.
  unfold optional_string, is_string, string_or_nullish. split.
  - destruct v; cbn; try discriminate; eauto.
  - intros [-> | [-> | [s ->]]]; reflexivity.
Qed.

Lemma is_string_iff (v : value) : is_string v = true <-> exists s, v = VStr s.
Proof.
  unfold is_string. split.
  - destruct v; cbn; try discriminate; eauto.
  - intros [s ->]. reflexivity.
Qed.

Lemma name_ok_iff (v : value) : name_ok v = true <-> lowercase_name v.
Proof.
  unfold lowercase_name. split.
  - destruct v as [| |b|n|s|f|ps|z|d]; cbn; try discriminate.
    intros H. apply andb_prop in H. destruct H as [Hne Hlow].
    exists s. repeat split.
    + intros ->. discriminate.
    + apply String.eqb_eq, Hlow.
  - intros (s & -> & Hne & Hlow). cbn.
    apply String.eqb_neq in Hne. apply String.eqb_eq in Hlow.
    rewrite Hne, Hlow. reflexivity.
Qed.

Lemma version_ok_iff (semver_valid : string -> bool) (v : value) :
  version_ok semver_valid v = true
  <-> exists s, v = VStr s /\ s <> "" /\ semver_valid s = true.
Proof.
  split.
  - destruct v as [| |b|n|s|f|ps|z|d]; cbn; try discriminate.
    intros H. apply andb_prop in H. destruct H as [Hne Hsv].
    exists s. repeat split; [|exact Hsv]. intros ->. discriminate.
  - intros (s & -> & Hne & Hsv). cbn.
    apply String.eqb_neq in Hne. rewrite Hne, Hsv. reflexivity.
Qed.

Lemma isPackageExport_true (x : value) :
  accepted (isPackageExport x) <-> export_ok x = true.
Proof. apply verdict_true, isPackageExport_verdict. Qed.

Lemma all_values_every (p : value -> bool) (P : value -> Prop)
    (props : list (string * value)) :
  (forall v, p v = true <-> P v) ->
  all_values p props = true <-> every_value P props.
Proof.
  intros Hp. rewrite all_values_forall. unfold every_value.
  split; intros H k v Hin; apply Hp, (H k v Hin).
Qed.

(** X1.  [isPackageExport] accepts exactly the objects whose [main] is a
    non-empty string and whose [types] is absent, [null] or a string. *)
Theorem isPackageExport_iff (x : value) :
  accepted (isPackageExport x)
  <-> exists props, x = VObj props
        /\ nonempty_string (lookup props "main")
        /\ string_or_nullish (lookup props "types").
Proof.
  rewrite isPackageExport_true. split.
  - destruct x as [| |b|n|s|f|props|z|d]; try discriminate.
    cbn [export_ok]. intros H. apply andb_prop in H. destruct H as [Hm Ht].
    exists props. split; [reflexivity|].
    split; [apply required_string_iff, Hm | apply optional_string_iff, Ht].
  - intros (props & -> & Hm & Ht). cbn [export_ok].
    apply required_string_iff in Hm. apply optional_string_iff in Ht.
    rewrite Hm, Ht. reflexivity.
Qed.

(** X2.  [isPackageAuthor] accepts exactly the objects whose [name] is a
    non-empty string and whose [email] and [url] are each absent, [null] or
    a string. *)
Theorem isPackageAuthor_iff (x : value) :
  accepted (isPackageAuthor x)
  <-> exists props, x = VObj props
        /\ nonempty_string (lookup props "name")
        /\ string_or_nullish (lookup props "email")
        /\ string_or_nullish (lookup props "url").
Proof.
  unfold accepted. rewrite isPackageAuthor_true. split.
  - destruct x as [| |b|n|s|f|props|z|d]; try discriminate.
    cbn [author_ok]. intros H.
    apply andb_prop in H. destruct H as [H Hu].
    apply andb_prop in H. destruct H as [Hn He].
    exists props. split; [reflexivity|].
    split; [apply required_string_iff, Hn|].
    split; [apply optional_string_iff, He | apply optional_string_iff, Hu].
  - intros (props & -> & Hn & He & Hu). cbn [author_ok].
    apply required_string_iff in Hn.
    apply optional_string_iff in He. apply optional_string_iff in Hu.
    rewrite Hn, He, Hu. reflexivity.
Qed.

Section Accepts.

Variable semver_valid : string -> bool.

Lemma maintainers_ok_iff (v : value) :
  maintainers_ok v = true
  <-> eq_null v = true
      \/ exists ms, v = VObj ms
           /\ every_value (fun a => accepted (isPackageAuthor a)) ms.
Proof.
  assert (Hall : forall ms,
    all_values author_ok ms = true
    <-> every_value (fun a => accepted (isPackageAuthor a)) ms).
  { intros ms. apply all_values_every. intros a. symmetry.
    apply isPackageAuthor_true. }
  split.
  - destruct v as [| |b|n|s|f|ms|z|d]; cbn; try discriminate; auto.
    intros H. right. exists ms. split; [reflexivity | apply Hall, H].
  - intros [H | (ms & -> & H)].
    + destruct v; try discriminate; reflexivity.
    + apply Hall, H.
Qed.

Lemma exports_ok_iff (v : value) :
  exports_ok v = true
  <-> exists es, v = VObj es
        /\ every_value (fun e => accepted (isPackageExport e)) es.
Proof.
  assert (Hall : forall es,
    all_values export_ok es = true
    <-> every_value (fun e => accepted (isPackageExport e)) es).
  { intros es. apply all_values_every. intros e. symmetry.
    apply isPackageExport_true. }
  split.
  - destruct v as [| |b|n|s|f|es|z|d]; cbn; try discriminate.
    intros H. exists es. split; [reflexivity | apply Hall, H].
  - intros (es & -> & H). apply Hall, H.
Qed.

(** X3.  [isPackage] accepts exactly the objects with a non-empty lowercase
    [name], a non-empty [version] that the semver checker accepts, a string
    [description] (the empty one included), an [author] that
    [isPackageAuthor] accepts, [maintainers] absent, [null] or an object
    whose values [isPackageAuthor] accepts, and [exports] an object whose
    values [isPackageExport] accepts. *)
Theorem isPackage_iff (x : value) :
  accepted (isPackage semver_valid x)
  <-> exists props, x = VObj props
        /\ lowercase_name (lookup props "name")
        /\ (exists v, lookup props "version" = VStr v /\ v <> ""
                      /\ semver_valid v = true)
        /\ (exists d, lookup props "description" = VStr d)
        /\ accepted (isPackageAuthor (lookup props "author"))
        /\ (eq_null (lookup props "maintainers") = true
            \/ exists ms, lookup props "maintainers" = VObj ms
                 /\ every_value (fun a => accepted (isPackageAuthor a)) ms)
        /\ (exists es, lookup props "exports" = VObj es
              /\ every_value (fun e => accepted (isPackageExport e)) es).
Proof.
  unfold accepted at 1. rewrite isPackage_true. split.
  - destruct x as [| |b|n|s|f|props|z|d]; try discriminate.
    cbn [package_ok]. intros H.
    repeat (apply andb_prop in H; destruct H as [H ?]).
    exists props. split; [reflexivity|].
    split; [apply name_ok_iff; assumption|].
    split; [apply (version_ok_iff semver_valid); assumption|].
    split; [apply is_string_iff; assumption|].
    split; [apply isPackageAuthor_true; assumption|].
    split; [apply maintainers_ok_iff; assumption|].
    apply exports_ok_iff; assumption.
  - intros (props & -> & Hn & Hv & Hd & Ha & Hm & He). cbn [package_ok].
    apply name_ok_iff in Hn. apply (version_ok_iff semver_valid) in Hv.
    apply is_string_iff in Hd. apply isPackageAuthor_true in Ha.
    apply maintainers_ok_iff in Hm. apply exports_ok_iff in He.
    rewrite Hn, Hv, Hd, Ha, Hm, He. reflexivity.
Qed.

Lemma versions_ok_iff (v : value) :
  versions_ok semver_valid v = true
  <-> exists vs, v = VObj vs
        /\ every_value (fun p => accepted (isPackage semver_valid p)) vs.
Proof.
  assert (Hall : forall vs,
    all_values (package_ok semver_valid) vs = true
    <-> every_value (fun p => accepted (isPackage semver_valid p)) vs).
  { intros vs. apply all_values_every. intros p. symmetry.
    apply isPackage_true. }
  split.
  - destruct v as [| |b|n|s|f|vs|z|d]; cbn; try discriminate.
    intros H. exists vs. split; [reflexivity | apply Hall, H].
  - intros (vs & -> & H). apply Hall, H.
Qed.

Lemma isTagValid_true (tag versions : value) :
  accepted (isTagValid semver_valid tag versions)
  <-> tag_ok semver_valid tag versions = true.
Proof. apply verdict_true, isTagValid_verdict. Qed.

Lemma isRemotePackage_true (x : value) :
  accepted (isRemotePackage semver_valid x) <-> remote_ok semver_valid x = true.
Proof. apply verdict_true, isRemotePackage_verdict. Qed.

(** X4.  [isTagValid] accepts exactly a non-empty string [tag] and an object
    [versions] whose values [isPackage] accepts and whose property read
    [versions[tag]] is truthy. *)
Theorem isTagValid_iff (tag versions : value) :
  accepted (isTagValid semver_valid tag versions)
  <-> exists t vs, tag = VStr t /\ t <> "" /\ versions = VObj vs
        /\ every_value (fun p => accepted (isPackage semver_valid p)) vs
        /\ ToBoolean (lookup vs t) = true.
Proof.
  rewrite isTagValid_true. split.
  - destruct tag as [| |b|n|t|f|ps|z|d]; try discriminate.
    destruct versions as [| |b|n|s|f|vs|z|d]; try discriminate.
    cbn [tag_ok]. intros H.
    apply andb_prop in H. destruct H as [H Hread].
    apply andb_prop in H. destruct H as [Hne Hall].
    exists t, vs. repeat split; try assumption.
    + intros ->. discriminate.
    + apply (proj1 (versions_ok_iff (VObj vs))) in Hall.
      destruct Hall as (vs' & [= <-] & Hall). exact Hall.
  - intros (t & vs & -> & Hne & -> & Hall & Hread). cbn [tag_ok].
    apply String.eqb_neq in Hne. rewrite Hne, Hread.
    assert (H : versions_ok semver_valid (VObj vs) = true)
      by (apply versions_ok_iff; eauto).
    cbn [versions_ok] in H. rewrite H. reflexivity.
Qed.

(** X5.  [isRemotePackage] accepts exactly the objects with non-empty strings
    [id] and [name], an [author] that [isPackageAuthor] accepts, [versions]
    an object whose values [isPackage] accepts, and [tags] an object each of
    whose values is a string that [isTagValid] accepts against [versions].
    No key of [tags] is required. *)
Theorem isRemotePackage_iff (x : value) :
  accepted (isRemotePackage semver_valid x)
  <-> exists props vs ts, x = VObj props
        /\ nonempty_string (lookup props "id")
        /\ nonempty_string (lookup props "name")
        /\ accepted (isPackageAuthor (lookup props "author"))
        /\ lookup props "versions" = VObj vs
        /\ every_value (fun p => accepted (isPackage semver_valid p)) vs
        /\ lookup props "tags" = VObj ts
        /\ every_value
             (fun t => accepted (isTagValid semver_valid t (VObj vs))) ts.
Proof.
  assert (Htags : forall vs ts,
    all_values (fun v => is_string v && tag_ok semver_valid v (VObj vs)) ts = true
    <-> every_value
          (fun t => accepted (isTagValid semver_valid t (VObj vs))) ts).
  { intros vs ts. apply all_values_every. intros t.
    rewrite isTagValid_true. split.
    - intros H. apply andb_prop in H. apply H.
    - intros H. rewrite H, andb_true_r.
      destruct t; try discriminate. reflexivity. }
  rewrite isRemotePackage_true. split.
  - destruct x as [| |b|n|s|f|props|z|d]; try discriminate.
    cbn [remote_ok]. intros H.
    do 4 (apply andb_prop in H; destruct H as [H ?]).
    match goal with Hv : versions_ok _ _ = true |- _ =>
      apply versions_ok_iff in Hv; destruct Hv as (vs & Hvs & Hall) end.
    rewrite Hvs in *.
    match goal with Ht : tags_ok _ _ _ = true |- _ =>
      destruct (lookup props "tags") as [| |b|n|s|f|ts|z|d] eqn:Hts;
        try discriminate Ht; cbn [tags_ok] in Ht; apply Htags in Ht end.
    exists props, vs, ts. split; [reflexivity|].
    split; [apply required_string_iff; assumption|].
    split; [apply required_string_iff; assumption|].
    split; [apply isPackageAuthor_true; assumption|].
    repeat split; assumption.
  - intros (props & vs & ts & -> & Hid & Hn & Ha & Hvs & Hall & Hts & Htg).
    cbn [remote_ok]. rewrite Hvs, Hts. cbn [tags_ok].
    apply required_string_iff in Hid, Hn. apply isPackageAuthor_true in Ha.
    apply Htags in Htg.
    assert (Hv : versions_ok semver_valid (VObj vs) = true)
      by (apply versions_ok_iff; eauto).
    rewrite Hid, Hn, Ha, Hv, Htg. reflexivity.
Qed.

End Accepts.

(** ** How many diagnostics a call writes *)

Lemma reports_inv (m : M bool) (b : bool) (lo hi : nat) :
  reports m b lo hi ->
  exists log, m = (Ret b, log) /\ (b = true -> log = [])
              /\ (b = false -> lo <= List.length log <= hi).
Proof.
  destruct m as [o log]. intros (Hv & Hq & Hn). cbn in *. subst o.
  exists log. auto.
Qed.

Lemma reports_stmt_inv (m : M (option bool)) (ok : bool) (lo hi : nat) :
  reports_stmt m ok lo hi ->
  exists log, m = (Ret (if ok then None else Some false), log)
              /\ (ok = true -> log = [])
              /\ (ok = false -> lo <= List.length log <= hi).
Proof.
  destruct m as [o log]. intros (Hv & Hq & Hn). cbn in *. subst o.
  exists log. auto.
Qed.

Lemma reports_weaken (m : M bool) (b : bool) (lo hi lo' hi' : nat) :
  reports m b lo hi -> lo' <= lo -> hi <= hi' -> reports m b lo' hi'.
Proof.
  intros (Hv & Hq & Hn) Hlo Hhi.
  split; [exact Hv|]. split; [exact Hq|].
  intros H. specialize (Hn H). lia.
Qed.

Lemma reports_stmt_weaken (m : M (option bool)) (ok : bool) (lo hi lo' hi' : nat) :
  reports_stmt m ok lo hi -> lo' <= lo -> hi <= hi' -> reports_stmt m ok lo' hi'.
Proof.
  intros (Hv & Hq & Hn) Hlo Hhi.
  split; [exact Hv|]. split; [exact Hq|].
  intros H. specialize (Hn H). lia.
Qed.

Lemma for_of_reports {A} (p : A -> bool) (body : A -> M (option bool))
    (l : list A) (lo hi : nat) :
  (forall a, In a l -> reports_stmt (body a) (p a) lo hi) ->
  reports_stmt (for_of l body) (forallb p l) lo hi.
Proof.
  induction l as [|a l IH]; intros Hbody.
  - split; [reflexivity|]. split; [reflexivity | discriminate].
  - destruct (reports_stmt_inv _ _ _ _ (Hbody a (or_introl eq_refl)))
      as (log & Ha & Hq & Hn).
    specialize (IH (fun b Hb => Hbody b (or_intror Hb))).
    destruct (reports_stmt_inv _ _ _ _ IH) as (log' & Hl & Hq' & Hn').
    cbn [for_of forallb]. rewrite Ha. unfold bind.
    destruct (p a); cbn [andb].
    + rewrite Hl. rewrite (Hq eq_refl).
      split; [reflexivity|]. split; [exact Hq' | exact Hn'].
    + split; [reflexivity|]. split; [discriminate|].
      intros _. unfold logged. cbn. rewrite app_nil_r. apply (Hn eq_refl).
Qed.

Lemma and_then_reports (stmt : M (option bool)) (rest : M bool) (ok b : bool)
    (lo hi : nat) :
  reports_stmt stmt ok lo hi -> (ok = true -> reports rest b lo hi) ->
  reports (and_then stmt rest) (ok && b) lo hi.
Proof.
  intros Hs Hr.
  destruct (reports_stmt_inv _ _ _ _ Hs) as (log & -> & Hq & Hn).
  unfold and_then, bind. destruct ok; cbn [andb].
  - destruct (reports_inv _ _ _ _ (Hr eq_refl)) as (log' & -> & Hq' & Hn').
    rewrite (Hq eq_refl).
    split; [reflexivity|]. split; [exact Hq' | exact Hn'].
  - split; [reflexivity|]. split; [discriminate|].
    intros _. unfold logged. cbn. rewrite app_nil_r. apply (Hn eq_refl).
Qed.

Ltac eval_log :=
  unfold reports, reports_stmt, logged, verdict, diagnostics, bind, lift, ret,
    logger_err, orM, notM;
  cbn.

Ltac logs_once :=
  eval_log; split; [reflexivity | split; [discriminate | intros _; lia]].

Ltac logs_more log :=
  eval_log; split;
  [reflexivity
  | split; [discriminate | intros _; rewrite ?length_app; cbn; lia]].

Section Diagnostics.

Variable semver_valid : string -> bool.

Lemma isPackageExport_reports (x : value) :
  reports (isPackageExport x) (export_ok x) 1 1.
Proof.
  unfold isPackageExport. rewrite guard_object.
  destruct x as [| |b|n|s|f|props|z|d]; try logs_once.
  cbn [get export_ok]. rewrite !bind_lift_ret.
  rewrite guard_string, guard_optional.
  destruct (required_string _); [|logs_once].
  destruct (optional_string _); [|logs_once].
  split; [reflexivity|]; split; [reflexivity | discriminate].
Qed.

Lemma isPackageAuthor_reports (x : value) :
  reports (isPackageAuthor x) (author_ok x) 1 1.
Proof.
  unfold isPackageAuthor. rewrite guard_object.
  destruct x as [| |b|n|s|f|props|z|d]; try logs_once.
  cbn [get author_ok]. rewrite !bind_lift_ret.
  rewrite guard_string, !guard_optional.
  destruct (required_string _); [|logs_once].
  destruct (optional_string (lookup props "email")); [|logs_once].
  destruct (optional_string (lookup props "url")); [|logs_once].
  split; [reflexivity|]; split; [reflexivity | discriminate].
Qed.

Lemma maintainer_entry_reports (e : string * value) :
  reports_stmt (maintainer_entry e) (author_ok (snd e)) 2 2.
Proof.
  destruct e as [key v]. unfold maintainer_entry. cbn [snd].
  destruct (reports_inv _ _ _ _ (isPackageAuthor_reports v))
    as (log & Hv & Hq & Hn).
  unfold orM, notM. cbn [typeof neqb String.eqb Ascii.eqb Bool.eqb negb].
  rewrite Hv. destruct (author_ok v).
  - rewrite (Hq eq_refl). split; [reflexivity|]; split; [reflexivity | discriminate].
  - specialize (Hn eq_refl). logs_more log.
Qed.

Lemma export_entry_reports (e : string * value) :
  reports_stmt (export_entry e) (export_ok (snd e)) 2 2.
Proof.
  destruct e as [key v]. unfold export_entry. cbn [snd].
  destruct (reports_inv _ _ _ _ (isPackageExport_reports v))
    as (log & Hv & Hq & Hn).
  cbn [typeof neqb String.eqb Ascii.eqb Bool.eqb negb].
  rewrite Hv. destruct (export_ok v).
  - rewrite (Hq eq_refl). split; [reflexivity|]; split; [reflexivity | discriminate].
  - specialize (Hn eq_refl). logs_more log.
Qed.

Lemma maintainers_reports (maintainers : value) :
  reports_stmt
    (if negb (eq_null maintainers) then
       if typeof maintainers !=? "object" then
         logger_err "Invalid Package.maintainers: expected object or null, got:"
                    [maintainers] ;;
         ret (Some false)
       else
         entries <- lift (Object_entries maintainers) ;;
         for_of entries maintainer_entry
     else ret None)
    (maintainers_ok maintainers) 1 2.
Proof.
  destruct maintainers as [| |b|n|s|f|props|z|d];
    try logs_once; try (repeat split; discriminate).
  cbn [eq_null negb typeof neqb String.eqb Ascii.eqb Bool.eqb Object_entries
       maintainers_ok].
  rewrite bind_lift_ret.
  apply (reports_stmt_weaken _ _ 2 2); [|lia|lia].
  apply for_of_reports. intros e _. apply maintainer_entry_reports.
Qed.

Lemma exports_reports (exports : value) :
  reports
    (if negb (ToBoolean exports) || (typeof exports !=? "object") then
       logger_err "Invalid Package.exports: expected object, got:" [exports] ;;
       ret false
     else
       and_then
         (entries <- lift (Object_entries exports) ;;
          for_of entries export_entry)
         (ret true))
    (exports_ok exports) 1 2.
Proof.
  rewrite guard_object.
  destruct exports as [| |b|n|s|f|props|z|d]; try logs_once.
  cbn [Object_entries exports_ok]. rewrite bind_lift_ret.
  rewrite <- (andb_true_r (all_values _ _)).
  apply and_then_reports.
  - apply (reports_stmt_weaken _ _ 2 2); [|lia|lia].
    apply for_of_reports. intros e _. apply export_entry_reports.
  - intros _. split; [reflexivity|]; split; [reflexivity | discriminate].
Qed.

Lemma author_check_reports (author : value) :
  exists log,
    orM (negb (ToBoolean author) || (typeof author !=? "object"))
        (notM (isPackageAuthor author))
    = (Ret (negb (author_ok author)), log)
    /\ (author_ok author = true -> log = [])
    /\ List.length log <= 1.
Proof.
  rewrite guard_object.
  destruct (reports_inv _ _ _ _ (isPackageAuthor_reports author))
    as (log & Hv & Hq & Hn).
  destruct author as [| |b|n|s|f|props|z|d];
    try (exists []; split; [reflexivity | split; [discriminate | cbn; lia]]).
  exists log. unfold orM, notM. rewrite Hv. unfold bind, ret.
  rewrite app_nil_r. repeat split; [exact Hq|].
  destruct (author_ok (VObj props)).
  - rewrite (Hq eq_refl). cbn. lia.
  - apply (Hn eq_refl).
Qed.

Lemma isPackage_reports (x : value) :
  reports (isPackage semver_valid x) (package_ok semver_valid x) 1 2.
Proof.
  unfold isPackage. rewrite guard_object.
  destruct x as [| |b|n|s|f|props|z|d]; try logs_once.
  cbn [get package_ok]. rewrite !bind_lift_ret.
  rewrite name_check, bind_ret.
  destruct (name_ok _); [|logs_once].
  rewrite version_check, bind_ret.
  destruct (version_ok _ _); [|logs_once].
  rewrite typeof_string.
  destruct (is_string _); [|logs_once].
  destruct (author_check_reports (lookup props "author"))
    as (log & -> & Hq & Hn).
  destruct (author_ok _); [|logs_more log].
  rewrite (Hq eq_refl). cbn [negb andb].
  change (@pair (outcome bool) (list diagnostic) (Ret false) []) with (ret false).
  rewrite bind_ret.
  apply and_then_reports.
  - apply maintainers_reports.
  - intros _. apply exports_reports.
Qed.

Lemma tag_version_entry_reports (e : string * value) :
  reports_stmt (tag_version_entry semver_valid e)
               (package_ok semver_valid (snd e)) 1 2.
Proof.
  destruct e as [key v]. unfold tag_version_entry. cbn [snd].
  destruct (reports_inv _ _ _ _ (isPackage_reports v)) as (log & Hv & Hq & Hn).
  cbn [typeof neqb String.eqb Ascii.eqb Bool.eqb negb].
  rewrite Hv. destruct (package_ok _ v).
  - rewrite (Hq eq_refl). split; [reflexivity|]; split; [reflexivity | discriminate].
  - specialize (Hn eq_refl). logs_more log.
Qed.

Lemma isTagValid_reports (tag versions : value) :
  reports (isTagValid semver_valid tag versions)
          (tag_ok semver_valid tag versions) 0 2.
Proof.
  unfold isTagValid. rewrite guard_string, guard_object.
  destruct tag as [| |b|n|s|f|ps|z|d]; try logs_once.
  - destruct b; logs_once.
  - destruct n; logs_once.
  - destruct s as [|c s]; [destruct versions; logs_once|].
    destruct versions as [| |b|n|t|f|props|z|d]; try logs_once.
    cbn [required_string ToBoolean is_string typeof String.eqb Ascii.eqb
         Bool.eqb negb andb Object_entries get_computed get tag_ok].
    rewrite !bind_lift_ret.
    apply and_then_reports.
    + apply (reports_stmt_weaken _ _ 1 2); [|lia|lia].
      apply for_of_reports. intros e _. apply tag_version_entry_reports.
    + intros _. destruct (ToBoolean _); repeat split; try discriminate.
      all: cbn; lia.
  - destruct z; logs_once.
Qed.

Lemma version_entry_reports (e : string * value) :
  reports_stmt (version_entry semver_valid e)
               (package_ok semver_valid (snd e)) 2 3.
Proof.
  destruct e as [key v]. unfold version_entry. cbn [snd].
  destruct (reports_inv _ _ _ _ (isPackage_reports v)) as (log & Hv & Hq & Hn).
  unfold orM, notM. cbn [typeof neqb String.eqb Ascii.eqb Bool.eqb negb].
  rewrite Hv. destruct (package_ok _ v).
  - rewrite (Hq eq_refl). split; [reflexivity|]; split; [reflexivity | discriminate].
  - specialize (Hn eq_refl). logs_more log.
Qed.

Lemma tag_entry_reports (versions : value) (e : string * value) :
  reports_stmt (tag_entry semver_valid versions e)
               (is_string (snd e) && tag_ok semver_valid (snd e) versions) 1 3.
Proof.
  destruct e as [key v]. unfold tag_entry. cbn [snd].
  destruct (reports_inv _ _ _ _ (isTagValid_reports v versions))
    as (log & Hv & Hq & Hn).
  change (typeof (VStr key) !=? "string") with false. cbn [orb].
  rewrite typeof_string.
  destruct (is_string v); [|logs_once].
  unfold orM, notM. cbn [negb andb].
  rewrite Hv. destruct (tag_ok _ v versions).
  - rewrite (Hq eq_refl). split; [reflexivity|]; split; [reflexivity | discriminate].
  - specialize (Hn eq_refl). logs_more log.
Qed.

Lemma isRemotePackage_reports (x : value) :
  reports (isRemotePackage semver_valid x) (remote_ok semver_valid x) 1 3.
Proof.
  unfold isRemotePackage. rewrite guard_object.
  destruct x as [| |b|n|s|f|props|z|d]; try logs_once.
  cbn [get remote_ok]. rewrite !bind_lift_ret.
  rewrite !guard_string.
  destruct (required_string (lookup props "id")); [|logs_once].
  destruct (required_string (lookup props "name")); [|logs_once].
  destruct (author_check_reports (lookup props "author"))
    as (log & -> & Hq & Hn).
  destruct (author_ok _); [|logs_more log].
  rewrite (Hq eq_refl). cbn [negb andb].
  change (@pair (outcome bool) (list diagnostic) (Ret false) []) with (ret false).
  rewrite bind_ret, !guard_object.
  destruct (lookup props "versions") as [| |b|n|s|f|versions|z|d]; try logs_once.
  cbn [Object_entries versions_ok]. rewrite bind_lift_ret.
  apply and_then_reports.
  - apply (reports_stmt_weaken _ _ 2 3); [|lia|lia].
    apply for_of_reports. intros e _. apply version_entry_reports.
  - intros _.
    destruct (lookup props "tags") as [| |b|n|s|f|tags|z|d]; try logs_once.
    cbn [Object_entries tags_ok]. rewrite bind_lift_ret.
    rewrite <- (andb_true_r (all_values _ _)).
    apply and_then_reports.
    + apply for_of_reports. intros e _. apply tag_entry_reports.
    + intros _. split; [reflexivity|]; split; [reflexivity | discriminate].
Qed.

End Diagnostics.

(** ** Diagnostics of accepted and rejected values *)

Section Logging.

Variable semver_valid : string -> bool.

(** X6.  A validator that accepts has logged nothing. *)
Theorem accepted_without_diagnostics (x tag versions : value) :
  (accepted (isPackageExport x) -> logged (isPackageExport x) = 0)
  /\ (accepted (isPackageAuthor x) -> logged (isPackageAuthor x) = 0)
  /\ (accepted (isPackage semver_valid x) ->
      logged (isPackage semver_valid x) = 0)
  /\ (accepted (isTagValid semver_valid tag versions) ->
      logged (isTagValid semver_valid tag versions) = 0)
  /\ (accepted (isRemotePackage semver_valid x) ->
      logged (isRemotePackage semver_valid x) = 0).
Proof.
  repeat split; intros H.
  - rewrite (decided_true_quiet _ _ (isPackageExport_decides x) H). reflexivity.
  - rewrite (decided_true_quiet _ _ (isPackageAuthor_decides x) H). reflexivity.
  - rewrite (decided_true_quiet _ _ (isPackage_decides semver_valid x) H).
    reflexivity.
  - rewrite (decided_true_quiet _ _
               (isTagValid_decides semver_valid tag versions) H).
    reflexivity.
  - rewrite (decided_true_quiet _ _ (isRemotePackage_decides semver_valid x) H).
    reflexivity.
Qed.

Lemma reports_refused (m : M bool) (b : bool) (lo hi : nat) :
  reports m b lo hi -> refused m -> lo <= logged m <= hi.
Proof.
  intros (Hv & _ & Hn) Hr. unfold refused in Hr. rewrite Hv in Hr.
  injection Hr as ->. apply Hn. reflexivity.
Qed.

(** X7.  A rejection is never silent for the four validators of a shape:
    [isPackageExport] and [isPackageAuthor] log exactly one diagnostic,
    [isPackage] one or two, [isRemotePackage] between one and three. *)
Theorem rejection_diagnostics (x : value) :
  (refused (isPackageExport x) -> logged (isPackageExport x) = 1)
  /\ (refused (isPackageAuthor x) -> logged (isPackageAuthor x) = 1)
  /\ (refused (isPackage semver_valid x) ->
      1 <= logged (isPackage semver_valid x) <= 2)
  /\ (refused (isRemotePackage semver_valid x) ->
      1 <= logged (isRemotePackage semver_valid x) <= 3).
Proof.
  split; [|split; [|split]]; intros H.
  - pose proof (reports_refused _ _ _ _ (isPackageExport_reports x) H). lia.
  - pose proof (reports_refused _ _ _ _ (isPackageAuthor_reports x) H). lia.
  - exact (reports_refused _ _ _ _ (isPackage_reports semver_valid x) H).
  - exact (reports_refused _ _ _ _ (isRemotePackage_reports semver_valid x) H).
Qed.

(** X8.  [isTagValid] is the one validator that can reject in silence: when
    [versions] is an ordinary object (not an array) with valid manifests, a
    non-empty tag that is neither one of its keys nor the name of a property
    of [Object.prototype] gives [false] and no diagnostic. *)
Theorem isTagValid_dangling_silent (tag : string) (vs : list (string * value)) :
  tag <> "" ->
  every_value (fun p => accepted (isPackage semver_valid p)) vs ->
  own vs tag = None -> own Object_prototype tag = None ->
  isTagValid semver_valid (VStr tag) (VObj vs) = (Ret false, []).
Proof.
  intros Hne Hall Hown Hproto.
  assert (Hreq : required_string (VStr tag) = true).
  { apply required_string_iff. exists tag. auto. }
  assert (Hloop : passes (for_of vs (tag_version_entry semver_valid)) true).
  { replace true with (forallb (fun e => package_ok semver_valid (snd e)) vs).
    - apply for_of_passes. intros e _. apply tag_version_entry_passes.
    - apply (all_values_forall (package_ok semver_valid) vs).
      intros k v Hin. apply isPackage_true, (Hall k v Hin). }
  destruct (passes_inv _ _ Hloop) as (log & Hl & Hlog).
  unfold isTagValid. rewrite guard_string, guard_object, Hreq.
  cbn [negb Object_entries get_computed get]. rewrite !bind_lift_ret.
  unfold and_then. rewrite Hl, (Hlog eq_refl).
  change (@pair (outcome (option bool)) (list diagnostic) (Ret None) [])
    with (@ret (option bool) None).
  rewrite bind_ret. unfold lookup. rewrite Hown, Hproto. reflexivity.
Qed.

(** X9.  A value that is not an object is rejected by the first guard, with the
    one diagnostic of that guard. *)
Theorem non_object_rejected (x : value) :
  (forall props, x <> VObj props) ->
  isPackageExport x
    = (Ret false, [Diag "Invalid PackageExport: not an object." []])
  /\ isPackageAuthor x
    = (Ret false, [Diag "Invalid PackageAuthor: not an object." []])
  /\ isPackage semver_valid x
    = (Ret false, [Diag "Invalid Package: not an object." []])
  /\ isRemotePackage semver_valid x
    = (Ret false, [Diag "Invalid RemotePackage: not an object." []]).
Proof.
  intros Hx.
  unfold isPackageExport, isPackageAuthor, isPackage, isRemotePackage.
  rewrite !guard_object.
  destruct x as [| |b|n|s|f|props|z|d]; try (repeat split; reflexivity).
  destruct (Hx props eq_refl).
Qed.

(** X10.  The name is checked first: when it is not a non-empty lowercase string
    the call logs the name diagnostic, with the offending value, and
    nothing else, whatever the other fields are. *)
Theorem isPackage_name_checked_first (props : list (string * value)) :
  ~ lowercase_name (lookup props "name") ->
  isPackage semver_valid (VObj props)
  = (Ret false,
     [Diag "Invalid Package.name: expected lowercase string, got:"
           [lookup props "name"]]).
Proof.
  intros Hname.
  assert (Hok : name_ok (lookup props "name") = false).
  { apply not_true_is_false. intros H. apply Hname, name_ok_iff, H. }
  unfold isPackage. rewrite guard_object. cbn [get].
  rewrite !bind_lift_ret, name_check, bind_ret, Hok. reflexivity.
Qed.

End Logging.

Lemma isTagValid_dangling_silent_witness :
  isTagValid SemVer.isValidSemVer (VStr "9.9.9") (VObj [("1.0.0", Sample.manifest)])
  = (Ret false, []).
Proof.
  apply (isTagValid_dangling_silent SemVer.isValidSemVer "9.9.9"
           [("1.0.0", Sample.manifest)]).
  - discriminate.
  - intros k v [[= <- <-]|[]]. reflexivity.
  - reflexivity.
  - reflexivity.
Defined.

Lemma non_object_rejected_witness :
  isPackage SemVer.isValidSemVer (VStr "left-pad")
  = (Ret false, [Diag "Invalid Package: not an object." []]).
Proof.
  apply (non_object_rejected SemVer.isValidSemVer (VStr "left-pad")).
  intros props. discriminate.
Defined.

Lemma isPackage_name_checked_first_witness :
  isPackage SemVer.isValidSemVer
    (VObj [("name", VStr "Left-Pad"); ("version", VStr "not a version")])
  = (Ret false,
     [Diag "Invalid Package.name: expected lowercase string, got:"
           [VStr "Left-Pad"]]).
Proof.
  apply (isPackage_name_checked_first SemVer.isValidSemVer
           [("name", VStr "Left-Pad"); ("version", VStr "not a version")]).
  intros (s & [= <-] & _ & Hlow). discriminate Hlow.
Defined.

(** The bounds of [rejection_diagnostics] are reached: a manifest with an
    invalid author logs twice, a record with such a manifest three times. *)
Lemma rejection_diagnostics_witness :
  refused (isPackage SemVer.isValidSemVer
             (VObj (set (Sample.manifest_of "left-pad" "1.0.0") "author" VNull)))
  /\ logged (isPackage SemVer.isValidSemVer
               (VObj (set (Sample.manifest_of "left-pad" "1.0.0") "author"
                          (VObj [("name", VStr "")])))) = 2
  /\ logged (isRemotePackage SemVer.isValidSemVer
               (remote_package (VStr "abc123") (VStr "left-pad") Sample.author
                  (VObj [("1.0.0",
                          VObj (set (Sample.manifest_of "left-pad" "1.0.0")
                                    "author" (VObj [("name", VStr "")])))])
                  (VObj Sample.no_property))) = 3
  /\ 1 <= logged (isPackage SemVer.isValidSemVer
                    (VObj (set (Sample.manifest_of "left-pad" "1.0.0")
                               "author" VNull))) <= 2.
Proof.
  split; [reflexivity|]. split; [reflexivity|]. split; [reflexivity|].
  apply (rejection_diagnostics SemVer.isValidSemVer). reflexivity.
Defined.

Lemma accepted_without_diagnostics_witness :
  logged (isPackage SemVer.isValidSemVer Sample.manifest) = 0.
Proof.
  apply (accepted_without_diagnostics SemVer.isValidSemVer Sample.manifest
           VNull VNull).
  reflexivity.
Defined.

(** ** The properties a validator reads *)

Section Fields.

Variable semver_valid : string -> bool.

Lemma isPackageExport_agree (props props' : list (string * value)) :
  agree export_fields props props' ->
  isPackageExport (VObj props) = isPackageExport (VObj props').
Proof.
  intros H. unfold isPackageExport. rewrite !guard_object. cbn [get].
  rewrite (H "main"), (H "types"); cbn; auto.
Qed.

Lemma isPackageAuthor_agree (props props' : list (string * value)) :
  agree author_fields props props' ->
  isPackageAuthor (VObj props) = isPackageAuthor (VObj props').
Proof.
  intros H. unfold isPackageAuthor. rewrite !guard_object. cbn [get].
  rewrite (H "name"), (H "email"), (H "url"); cbn; auto.
Qed.

Lemma isPackage_agree (props props' : list (string * value)) :
  agree package_fields props props' ->
  isPackage semver_valid (VObj props) = isPackage semver_valid (VObj props').
Proof.
  intros H. unfold isPackage. rewrite !guard_object. cbn [get].
  rewrite (H "name"), (H "version"), (H "description"), (H "author"),
    (H "maintainers"), (H "exports"); cbn; auto 10.
Qed.

Lemma isRemotePackage_agree (props props' : list (string * value)) :
  agree remote_fields props props' ->
  isRemotePackage semver_valid (VObj props)
  = isRemotePackage semver_valid (VObj props').
Proof.
  intros H. unfold isRemotePackage. rewrite !guard_object. cbn [get].
  rewrite (H "id"), (H "name"), (H "author"), (H "tags"), (H "versions");
    cbn; auto 10.
Qed.

(** X11.  Each validator depends on its argument only through the properties it
    destructures: two objects that read alike there get the same verdict
    and the same diagnostics.  Further properties and the order of the
    properties play no part. *)
Theorem validators_read_declared_fields (props props' : list (string * value)) :
  (agree export_fields props props' ->
   isPackageExport (VObj props) = isPackageExport (VObj props'))
  /\ (agree author_fields props props' ->
      isPackageAuthor (VObj props) = isPackageAuthor (VObj props'))
  /\ (agree package_fields props props' ->
      isPackage semver_valid (VObj props) = isPackage semver_valid (VObj props'))
  /\ (agree remote_fields props props' ->
      isRemotePackage semver_valid (VObj props)
      = isRemotePackage semver_valid (VObj props')).
Proof.
  split; [apply isPackageExport_agree|].
  split; [apply isPackageAuthor_agree|].
  split; [apply isPackage_agree | apply isRemotePackage_agree].
Qed.

(** X12.  Setting a property that [isPackage] does not read leaves its result
    unchanged. *)
Theorem isPackage_ignores_other_properties (props : list (string * value))
    (k : string) (v : value) :
  ~ In k package_fields ->
  isPackage semver_valid (VObj (set props k v)) = isPackage semver_valid (VObj props).
Proof.
  intros Hk. apply isPackage_agree.
  intros f Hf. rewrite lookup_set.
  destruct (String.eqb_spec k f) as [->|_]; [contradiction | reflexivity].
Qed.

(** ** Names and minimal manifests *)

Lemma lower_unit_idempotent (c : ascii) : lower_unit (lower_unit c) = lower_unit c.
Proof.
  destruct c as [[] [] [] [] [] [] [] []]; vm_compute; reflexivity.
Qed.

Lemma toLowerCase_idempotent (s : string) :
  toLowerCase (toLowerCase s) = toLowerCase s.
Proof.
  induction s as [|c s IH]; cbn; [reflexivity|].
  rewrite lower_unit_idempotent, IH. reflexivity.
Qed.

(** X13.  Lowercasing repairs a name: a manifest valid in every other field is
    accepted, with no diagnostic, once its name is set to the lowercase
    form of any non-empty string. *)
Theorem lowercased_name_accepted (props : list (string * value)) (name : string) :
  valid_apart_from semver_valid "name" props ->
  name <> "" ->
  isPackage semver_valid (VObj (set props "name" (VStr (toLowerCase name))))
  = (Ret true, []).
Proof.
  intros [v0 Hv0] Hne.
  apply (decided_true_quiet _ _ (isPackage_decides semver_valid _)).
  rewrite isPackage_by_name.
  - rewrite lookup_set. cbn [String.eqb Ascii.eqb Bool.eqb name_ok].
    rewrite toLowerCase_idempotent, String.eqb_refl.
    destruct name as [|c s]; [contradiction | reflexivity].
  - exists v0. rewrite <- Hv0. rewrite !isPackage_verdict. cbn [package_ok].
    rewrite !lookup_set. cbn [String.eqb Ascii.eqb Bool.eqb]. reflexivity.
Qed.

(** X14.  The smallest manifest [isPackage] accepts: the description may be the
    empty string, the exports the empty object, and maintainers, email and
    url may be missing. *)
Theorem minimal_manifest_accepted (name version author_name : string) :
  name <> "" -> toLowerCase name = name ->
  version <> "" -> semver_valid version = true ->
  author_name <> "" ->
  isPackage semver_valid
    (VObj [("name", VStr name); ("version", VStr version);
           ("description", VStr "");
           ("author", VObj [("name", VStr author_name)]);
           ("exports", VObj Sample.no_property)])
  = (Ret true, []).
Proof.
  intros Hn Hlow Hv Hsv Ha.
  apply (decided_true_quiet _ _ (isPackage_decides semver_valid _)).
  apply isPackage_true. cbn [package_ok].
  cbn [lookup own String.eqb Ascii.eqb Bool.eqb].
  assert (Hname : name_ok (VStr name) = true).
  { apply name_ok_iff. exists name. auto. }
  assert (Hversion : version_ok semver_valid (VStr version) = true).
  { apply version_ok_iff. exists version. auto. }
  assert (Hauthor : author_ok (VObj [("name", VStr author_name)]) = true).
  { cbn [author_ok lookup own String.eqb Ascii.eqb Bool.eqb].
    rewrite (proj2 (required_string_iff (VStr author_name))).
    - reflexivity.
    - exists author_name. auto. }
  rewrite Hname, Hversion, Hauthor. reflexivity.
Qed.

End Fields.

Lemma validators_read_declared_fields_witness :
  isPackageAuthor
    (VObj [("twitter", VStr "@jane"); ("email", VStr "jane@example.org");
           ("name", VStr "Jane Doe")])
  = isPackageAuthor Sample.author.
Proof.
  apply (validators_read_declared_fields SemVer.isValidSemVer
           [("twitter", VStr "@jane"); ("email", VStr "jane@example.org");
            ("name", VStr "Jane Doe")]
           [("name", VStr "Jane Doe"); ("email", VStr "jane@example.org")]).
  intros k [<-|[<-|[<-|[]]]]; reflexivity.
Defined.

Lemma isPackage_ignores_other_properties_witness :
  isPackage SemVer.isValidSemVer
    (VObj (set (Sample.manifest_of "left-pad" "1.0.0") "license" (VNum S754_nan)))
  = isPackage SemVer.isValidSemVer Sample.manifest.
Proof.
  apply (isPackage_ignores_other_properties SemVer.isValidSemVer
           (Sample.manifest_of "left-pad" "1.0.0") "license" (VNum S754_nan)).
  intros [H|[H|[H|[H|[H|[H|[]]]]]]]; discriminate H.
Defined.

Lemma lowercased_name_accepted_witness :
  isPackage SemVer.isValidSemVer
    (VObj (set (Sample.manifest_of "Left-Pad" "1.0.0") "name"
               (VStr (toLowerCase "Left-Pad"))))
  = (Ret true, []).
Proof.
  apply (lowercased_name_accepted SemVer.isValidSemVer
           (Sample.manifest_of "Left-Pad" "1.0.0") "Left-Pad").
  - exists (VStr "left-pad"). reflexivity.
  - discriminate.
Defined.

Lemma minimal_manifest_accepted_witness :
  isPackage SemVer.isValidSemVer
    (VObj [("name", VStr "left-pad"); ("version", VStr "1.0.0");
           ("description", VStr "");
           ("author", VObj [("name", VStr "Jane Doe")]);
           ("exports", VObj Sample.no_property)])
  = (Ret true, []).
Proof.
  apply (minimal_manifest_accepted SemVer.isValidSemVer "left-pad" "1.0.0"
           "Jane Doe"); try discriminate; reflexivity.
Defined.

(** ** Records, tags and entries *)

Section Records.

Variable semver_valid : string -> bool.

(** X15.  What an accepted record guarantees about its tags when its
    [versions] and [tags] are ordinary objects (not arrays): each tag value
    is a non-empty string that is a key of [versions] with an accepted
    manifest, or the name of a property inherited from [Object.prototype]. *)
Theorem accepted_tags_resolve (props vs ts : list (string * value)) :
  lookup props "versions" = VObj vs ->
  lookup props "tags" = VObj ts ->
  accepted (isRemotePackage semver_valid (VObj props)) ->
  forall k t, In (k, t) ts ->
    exists s, t = VStr s /\ s <> ""
      /\ ((exists p, In (s, p) vs /\ accepted (isPackage semver_valid p))
          \/ own Object_prototype s <> None).
Proof.
  intros Evs Ets H.
  apply verdict_true with (b := remote_ok semver_valid (VObj props)) in H;
    [|apply isRemotePackage_verdict].
  cbn [remote_ok] in H. rewrite Evs, Ets in H.
  apply andb_prop in H. destruct H as [H Htags].
  apply andb_prop in H. destruct H as [_ Hvs].
  cbn [versions_ok] in Hvs. cbn [tags_ok] in Htags.
  intros k t Hin.
  pose proof (proj1 (all_values_forall _ _) Htags k t Hin) as Ht.
  cbn beta in Ht. apply andb_prop in Ht. destruct Ht as [Hstr Hok].
  destruct t as [| |b|n|s|f|ps|z|d]; try discriminate.
  cbn [tag_ok] in Hok.
  apply andb_prop in Hok. destruct Hok as [Hok Hread].
  apply andb_prop in Hok. destruct Hok as [Hne _].
  exists s. split; [reflexivity|]. split.
  { intros ->. discriminate. }
  unfold lookup in Hread. destruct (own vs s) as [p|] eqn:Hown.
  - left. exists p. apply own_In in Hown. split; [exact Hown|].
    apply isPackage_true.
    exact (proj1 (all_values_forall _ _) Hvs s p Hown).
  - right. intros Hproto. rewrite Hproto in Hread. discriminate.
Qed.

(** X16.  The key of a version is not compared with the manifest stored under
    it, nor the name of the record with the name of the manifest: a record
    with one accepted manifest under any non-empty key, and [latest] at
    that key, is accepted. *)
Theorem version_key_unchecked (key id name : string) (p author : value) :
  accepted (isPackage semver_valid p) ->
  accepted (isPackageAuthor author) ->
  key <> "" -> id <> "" -> name <> "" ->
  isRemotePackage semver_valid
    (remote_package (VStr id) (VStr name) author
       (VObj [(key, p)]) (VObj [("latest", VStr key)]))
  = (Ret true, []).
Proof.
  intros Hp Ha Hkey Hid Hname.
  apply (decided_true_quiet _ _ (isRemotePackage_decides semver_valid _)).
  apply isPackage_true in Hp. apply isPackageAuthor_true in Ha.
  assert (Hid' : required_string (VStr id) = true)
    by (apply required_string_iff; exists id; auto).
  assert (Hname' : required_string (VStr name) = true)
    by (apply required_string_iff; exists name; auto).
  assert (Htrue : ToBoolean p = true).
  { destruct p; try discriminate. reflexivity. }
  rewrite isRemotePackage_verdict. unfold remote_package.
  cbn [remote_ok].
  replace (lookup _ "id") with (VStr id) by reflexivity.
  replace (lookup _ "name") with (VStr name) by reflexivity.
  replace (lookup _ "author") with author by reflexivity.
  replace (lookup _ "versions") with (VObj [(key, p)]) by reflexivity.
  replace (lookup _ "tags") with (VObj [("latest", VStr key)]) by reflexivity.
  cbn [versions_ok tags_ok all_values forallb snd tag_ok is_string typeof].
  unfold lookup. cbn [own]. rewrite String.eqb_refl.
  apply String.eqb_neq in Hkey.
  rewrite Hid', Hname', Ha, Hp, Htrue, Hkey. reflexivity.
Qed.

Lemma for_of_skip {A R} (body : A -> M (option R)) (l1 l2 : list A) :
  (forall a, In a l1 -> body a = (Ret None, [])) ->
  for_of (l1 ++ l2) body = for_of l2 body.
Proof.
  induction l1 as [|a l1 IH]; intros H; [reflexivity|].
  cbn [app for_of]. rewrite (H a (or_introl eq_refl)).
  change (@pair (outcome (option R)) (list diagnostic) (Ret None) [])
    with (@ret (option R) None).
  rewrite bind_ret. apply IH. intros b Hb. apply H. right. exact Hb.
Qed.

(** X17.  The loop over the exports stops at the first entry that
    [isPackageExport] refuses: the call logs what that check logged and the
    diagnostic naming the key, and nothing about the later entries. *)
Theorem first_invalid_export_reported (props es1 es2 : list (string * value))
    (key : string) (bad : value) :
  valid_apart_from semver_valid "exports" props ->
  lookup props "exports" = VObj (es1 ++ (key, bad) :: es2) ->
  every_value (fun e => accepted (isPackageExport e)) es1 ->
  refused (isPackageExport bad) ->
  isPackage semver_valid (VObj props)
  = (Ret false,
     diagnostics (isPackageExport bad)
     ++ [Diag ("Invalid PackageExport for key '" ++ key ++ "':") [bad]])%list.
Proof.
  intros [v0 Hv0] Hexports Hes1 Hbad.
  apply isPackage_true in Hv0. cbn [package_ok] in Hv0.
  rewrite !lookup_set in Hv0. cbn [String.eqb Ascii.eqb Bool.eqb] in Hv0.
  do 5 (apply andb_prop in Hv0; destruct Hv0 as [Hv0 ?]).
  unfold isPackage. rewrite guard_object. cbn [get]. rewrite !bind_lift_ret.
  rewrite name_check, bind_ret, Hv0. cbn [negb].
  rewrite version_check, bind_ret.
  match goal with Hv : version_ok _ _ = true |- _ => rewrite Hv end.
  cbn [negb]. rewrite typeof_string.
  match goal with Hd : is_string _ = true |- _ => rewrite Hd end.
  cbn [negb].
  destruct (author_check (lookup props "author")) as (log & -> & Hlog).
  match goal with Ha : author_ok _ = true |- _ =>
    rewrite Ha in *; rewrite (Hlog eq_refl) end.
  cbn [negb].
  change (@pair (outcome bool) (list diagnostic) (Ret false) []) with (ret false).
  rewrite bind_ret.
  destruct (passes_inv _ _ (maintainers_passes (lookup props "maintainers")))
    as (mlog & -> & Hmlog).
  match goal with Hm : maintainers_ok _ = true |- _ =>
    rewrite Hm in *; rewrite (Hmlog eq_refl) end.
  unfold and_then at 1.
  change (@pair (outcome (option bool)) (list diagnostic) (Ret None) [])
    with (@ret (option bool) None).
  rewrite bind_ret, Hexports, guard_object.
  cbn [Object_entries]. rewrite bind_lift_ret.
  rewrite for_of_skip.
  - cbn [for_of export_entry].
    cbn [typeof neqb String.eqb Ascii.eqb Bool.eqb negb].
    destruct (isPackageExport bad) as [o blog] eqn:Eb.
    unfold refused, verdict in Hbad. cbn in Hbad. subst o.
    unfold and_then, bind, ret, logger_err. cbn.
    rewrite !app_nil_r. reflexivity.
  - intros [k e] Hin. unfold export_entry.
    cbn [typeof neqb String.eqb Ascii.eqb Bool.eqb negb].
    rewrite (decided_true_quiet _ _ (isPackageExport_decides e) (Hes1 k e Hin)).
    reflexivity.
Qed.

End Records.

Lemma accepted_tags_resolve_witness :
  exists s, VStr "1.0.0" = VStr s /\ s <> ""
    /\ ((exists p, In (s, p) [("1.0.0", Sample.manifest)]
                   /\ accepted (isPackage SemVer.isValidSemVer p))
        \/ own Object_prototype s <> None).
Proof.
  apply (accepted_tags_resolve SemVer.isValidSemVer
           [("id", VStr "abc123"); ("name", VStr "left-pad");
            ("author", Sample.author);
            ("versions", VObj [("1.0.0", Sample.manifest)]);
            ("tags", VObj [("latest", VStr "1.0.0")])]
           [("1.0.0", Sample.manifest)] [("latest", VStr "1.0.0")]
           eq_refl eq_refl eq_refl "latest" (VStr "1.0.0")).
  left. reflexivity.
Defined.

Lemma version_key_unchecked_witness :
  isRemotePackage SemVer.isValidSemVer
    (remote_package (VStr "abc123") (VStr "right-pad") Sample.author
       (VObj [("next", Sample.manifest)]) (VObj [("latest", VStr "next")]))
  = (Ret true, []).
Proof.
  apply (version_key_unchecked SemVer.isValidSemVer "next" "abc123" "right-pad"
           Sample.manifest Sample.author); try discriminate; reflexivity.
Defined.

Lemma first_invalid_export_reported_witness :
  isPackage SemVer.isValidSemVer
    (VObj (set (Sample.manifest_of "left-pad" "1.0.0") "exports"
               (VObj [(".", VObj [("main", VStr "index.js")]);
                      ("./cli", VObj [("main", VNum S754_nan)]);
                      ("./broken", VNull)])))
  = (Ret false,
     [Diag "Invalid PackageExport.main: expected string, got:" [VNum S754_nan];
      Diag "Invalid PackageExport for key './cli':"
           [VObj [("main", VNum S754_nan)]]]).
Proof.
  apply (first_invalid_export_reported SemVer.isValidSemVer
           (set (Sample.manifest_of "left-pad" "1.0.0") "exports"
                (VObj [(".", VObj [("main", VStr "index.js")]);
                       ("./cli", VObj [("main", VNum S754_nan)]);
                       ("./broken", VNull)]))
           [(".", VObj [("main", VStr "index.js")])]
           [("./broken", VNull)]
           "./cli" (VObj [("main", VNum S754_nan)])).
  - exists Sample.dot_export. reflexivity.
  - reflexivity.
  - intros k v [[= <- <-]|[]]. reflexivity.
  - reflexivity.
Defined.
